(** * Pod queries of the purser dgraph controller

    A verification model of [pkg/controller/dgraph/models/query/pod.go].

    The Go functions are embedded shallowly: each one becomes a Rocq function
    in a small state monad over a [World] that records the requests sent to
    the graph store and the lines written to the log.  The request texts are
    the Go raw string literals, character for character.  To speak about
    what a request asks the store to do, the file also gives the fragment of
    the store's query language those texts are written in as a syntax tree
    with a printer, shows that every text is the printed form of a tree, and
    evaluates filters and [math(...)] expressions on that tree. *)

From Stdlib Require Import String Ascii List ZArith NArith QArith Qminmax Lqa Lia DecimalString.
From stdpp Require Import base option list strings gmap.

Set Warnings "-register-all".

Local Open Scope string_scope.
Local Open Scope list_scope.

(** ** Text building blocks *)

Definition nl : string := String (ascii_of_nat 10) EmptyString.
Definition tab : string := String (ascii_of_nat 9) EmptyString.
Definition dq : string := String (ascii_of_nat 34) EmptyString.

Fixpoint tabs (n : nat) : string :=
  match n with
  | O => ""
  | S k => tab +:+ tabs k
  end.

(** One line of a raw string literal: [d] tabs, the text, a line feed. *)
Definition ln (d : nat) (s : string) : string := tabs d +:+ s +:+ nl.

(** ** The store's query language

    The fragment of the graph store's query language that the requests of
    [pod.go] are written in: its syntax, the printer that lays a request out
    as the Go literals do, and the meaning of filters, of edge traversal and
    of [math(...)] expressions.  The store itself is outside the repository;
    this module is the reading of its language under which the requests are
    judged. *)

Module DQL.

(** *** Syntax *)

Inductive Filter :=
| FHas (p : string)
| FEq (p v : string)
| FNot (f : Filter)
| FAnd (f g : Filter)
| FOr (fs : list Filter).

Inductive Expr :=
| EVar (v : string)
| ENum (lit : string)
| ESince (e : Expr)
| ECond (c a b : Expr)
| EGt (a b : Expr)
| EEq (a b : Expr)
| ESub (a b : Expr)
| EMul (a b : Expr)
| EDiv (a b : Expr).

(** A line of a block.  [alias] is the name before the colon, [var] the
    value variable before [as]. *)
Inductive Field :=
| Pred (alias var : option string) (p : string)
| Count (alias var : option string) (p : string)
| Math (alias var : option string) (e : Expr)
| Edge (lead : option string) (alias var : option string) (edge : string)
       (flt : option Filter) (body : list Field).

Inductive Func :=
| FuncHas (p : string)
| FuncUid (v : string).

Record Block := {
  blk_name : string;
  blk_func : Func;
  blk_filter : option Filter;
  blk_body : list Field;
}.

(** *** Printer *)

Fixpoint render_filter (f : Filter) : string :=
  match f with
  | FHas p => "has(" +:+ p +:+ ")"
  | FEq p v => "eq(" +:+ p +:+ ", " +:+ dq +:+ v +:+ dq +:+ ")"
  | FNot f => "(NOT " +:+ render_filter f +:+ ")"
  | FAnd f g => "(" +:+ render_filter f +:+ " AND " +:+ render_filter g +:+ ")"
  | FOr fs => String.concat " OR " (map render_filter fs)
  end.

Definition paren (b : bool) (s : string) : string :=
  if b then "(" +:+ s +:+ ")" else s.

(** [lvl] is the binding strength the context asks for: 0 anything,
    2 at least a sum, 3 at least a product, 4 an atom. *)
Fixpoint render_expr (lvl : nat) (e : Expr) : string :=
  match e with
  | EVar v => v
  | ENum lit => lit
  | ESince e => "since(" +:+ render_expr 0 e +:+ ")"
  | ECond c a b =>
      "cond(" +:+ render_expr 0 c +:+ ", " +:+ render_expr 0 a +:+ ", " +:+
      render_expr 0 b +:+ ")"
  | EGt a b => paren (1 <? lvl)%nat (render_expr 2 a +:+ " > " +:+ render_expr 2 b)
  | EEq a b => paren (1 <? lvl)%nat (render_expr 2 a +:+ " == " +:+ render_expr 2 b)
  | ESub a b => paren (2 <? lvl)%nat (render_expr 2 a +:+ " - " +:+ render_expr 3 b)
  | EMul a b => paren (3 <? lvl)%nat (render_expr 3 a +:+ " * " +:+ render_expr 4 b)
  | EDiv a b => paren (3 <? lvl)%nat (render_expr 3 a +:+ " / " +:+ render_expr 4 b)
  end.

Definition render_names (alias var : option string) : string :=
  match alias with Some a => a +:+ ": " | None => "" end +:+
  match var with Some v => v +:+ " as " | None => "" end.

Definition render_at (flt : option Filter) : string :=
  match flt with
  | Some f => " @filter(" +:+ render_filter f +:+ ")"
  | None => ""
  end.

(** A line stands [d] tabs deep; an edge may carry the white space that
    stands before it instead ([lead]). *)
Fixpoint render_field (d : nat) (f : Field) : string :=
  match f with
  | Pred alias var p => tabs d +:+ render_names alias var +:+ p +:+ nl
  | Count alias var p =>
      tabs d +:+ render_names alias var +:+ "count(" +:+ p +:+ ")" +:+ nl
  | Math alias var e =>
      tabs d +:+ render_names alias var +:+ "math(" +:+ render_expr 0 e +:+ ")" +:+ nl
  | Edge lead alias var edge flt body =>
      default (tabs d) lead +:+ render_names alias var +:+ edge +:+ render_at flt +:+
      " {" +:+ nl +:+
      String.concat "" (map (render_field (S d)) body) +:+
      tabs d +:+ "}" +:+ nl
  end.

Definition render_func (f : Func) : string :=
  match f with
  | FuncHas p => "has(" +:+ p +:+ ")"
  | FuncUid v => "uid(" +:+ v +:+ ")"
  end.

Definition render_block (d : nat) (b : Block) : string :=
  tabs d +:+ blk_name b +:+ "(func: " +:+ render_func (blk_func b) +:+ ")" +:+
  render_at (blk_filter b) +:+ " {" +:+ nl +:+
  String.concat "" (map (render_field (S d)) (blk_body b)) +:+
  tabs d +:+ "}" +:+ nl.

(** The whole request, whose closing brace stands [d] tabs deep. *)
Definition render (d : nat) (q : list Block) : string :=
  "query {" +:+ nl +:+
  String.concat "" (map (render_block (S d)) q) +:+
  tabs d +:+ "}".

(** *** Graphs *)

Record Node := {
  uid : string;
  (** string valued predicates, such as [name] *)
  str : string -> option string;
  (** number and time valued predicates; a time is in seconds *)
  num : string -> option Q;
  (** edges: the uids a predicate points at *)
  out : string -> list string;
}.

Definition Graph : Type := list Node.

Definition has (p : string) (n : Node) : bool :=
  match str n p, num n p, out n p with
  | None, None, [] => false
  | _, _, _ => true
  end.

Fixpoint holds (n : Node) (f : Filter) : bool :=
  match f with
  | FHas p => has p n
  | FEq p v => match str n p with Some x => String.eqb x v | None => false end
  | FNot f => negb (holds n f)
  | FAnd f g => holds n f && holds n g
  | FOr fs => existsb (holds n) fs
  end.

Definition holds_at (n : Node) (flt : option Filter) : bool :=
  match flt with Some f => holds n f | None => true end.

Definition points_at (p : string) (m n : Node) : bool :=
  existsb (String.eqb (uid n)) (out m p).

(** The nodes one hop from [n] along [edge]; [~p] walks [p] backwards. *)
Definition follow (g : Graph) (edge : string) (n : Node) : list Node :=
  match edge with
  | String "~" p => List.filter (fun m => points_at p m n) g
  | p => List.filter (fun m => points_at p n m) g
  end.

(** Uid variables: the uids each one stands for. *)
Definition UidVars : Type := list (string * list string).

Fixpoint uids_of (v : string) (vars : UidVars) : list string :=
  match vars with
  | [] => []
  | (k, us) :: r => if String.eqb v k then us else uids_of v r
  end.

Definition at_root (vars : UidVars) (f : Func) (n : Node) : bool :=
  match f with
  | FuncHas p => has p n
  | FuncUid v => existsb (String.eqb (uid n)) (uids_of v vars)
  end.

(** The nodes a block starts from. *)
Definition roots (g : Graph) (vars : UidVars) (b : Block) : list Node :=
  List.filter (fun n => at_root vars (blk_func b) n && holds_at n (blk_filter b)) g.

(** The uid variables a block's edges define, given its roots. *)
Fixpoint defined_vars (g : Graph) (rs : list Node) (body : list Field) : UidVars :=
  match body with
  | [] => []
  | Edge _ _ (Some v) edge flt _ :: rest =>
      (v, flat_map (fun r => map uid (List.filter (fun m => holds_at m flt) (follow g edge r))) rs)
      :: defined_vars g rs rest
  | _ :: rest => defined_vars g rs rest
  end.

(** Blocks run in order; a block named [var] returns nothing. *)
Fixpoint run_blocks (g : Graph) (vars : UidVars) (q : list Block)
  : list (string * list Node) :=
  match q with
  | [] => []
  | b :: rest =>
      let rs := roots g vars b in
      let vars' := defined_vars g rs (blk_body b) ++ vars in
      if String.eqb (blk_name b) "var" then run_blocks g vars' rest
      else (blk_name b, rs) :: run_blocks g vars' rest
  end.

Definition run (g : Graph) (q : list Block) : list (string * list Node) :=
  run_blocks g [] q.

(** The nodes returned under the block called [name]. *)
Fixpoint returned (name : string) (res : list (string * list Node)) : list Node :=
  match res with
  | [] => []
  | (k, ns) :: r => if String.eqb name k then ns else returned name r
  end.

(** *** Numbers *)

Definition digit_of (c : ascii) : option Z :=
  let n := nat_of_ascii c in
  if ((48 <=? n) && (n <=? 57))%nat then Some (Z.of_nat (n - 48)) else None.

Fixpoint parse_fraction (s : string) (m : Z) (den : positive) : option Q :=
  match s with
  | EmptyString => Some (m # den)
  | String c r =>
      match digit_of c with
      | Some k => parse_fraction r (10 * m + k)%Z (10 * den)%positive
      | None => None
      end
  end.

Fixpoint parse_whole (s : string) (m : Z) (seen : bool) : option Q :=
  match s with
  | EmptyString => if seen then Some (m # 1) else None
  | String "." r => if seen then parse_fraction r m 1 else None
  | String c r =>
      match digit_of c with
      | Some k => parse_whole r (10 * m + k)%Z true
      | None => None
      end
  end.

(** The value of a decimal literal: digits, then maybe a point and more
    digits, maybe after a minus sign. *)
Definition parse_decimal (s : string) : option Q :=
  match s with
  | String "-" r => option_map Qopp (parse_whole r 0 false)
  | _ => parse_whole s 0 false
  end.

(** *** Value variables and math *)

Definition Env : Type := list (string * Q).

Fixpoint value_of (v : string) (env : Env) : option Q :=
  match env with
  | [] => None
  | (k, x) :: r => if String.eqb v k then Some x else value_of v r
  end.

Definition Qgtb (a b : Q) : bool := negb (Qle_bool a b).

(** [now] is the time of evaluation, in seconds.  [cond] looks only at the
    branch it takes. *)
Fixpoint eval_num (now : Q) (env : Env) (e : Expr) : option Q :=
  match e with
  | EVar v => value_of v env
  | ENum lit => parse_decimal lit
  | ESince e => option_map (fun t => now - t)%Q (eval_num now env e)
  | ECond c a b =>
      match eval_bool now env c with
      | Some true => eval_num now env a
      | Some false => eval_num now env b
      | None => None
      end
  | ESub a b =>
      match eval_num now env a, eval_num now env b with
      | Some x, Some y => Some (x - y)%Q
      | _, _ => None
      end
  | EMul a b =>
      match eval_num now env a, eval_num now env b with
      | Some x, Some y => Some (x * y)%Q
      | _, _ => None
      end
  | EDiv a b =>
      match eval_num now env a, eval_num now env b with
      | Some x, Some y => Some (x / y)%Q
      | _, _ => None
      end
  | EGt _ _ | EEq _ _ => None
  end
with eval_bool (now : Q) (env : Env) (e : Expr) : option bool :=
  match e with
  | EGt a b =>
      match eval_num now env a, eval_num now env b with
      | Some x, Some y => Some (Qgtb x y)
      | _, _ => None
      end
  | EEq a b =>
      match eval_num now env a, eval_num now env b with
      | Some x, Some y => Some (Qeq_bool x y)
      | _, _ => None
      end
  | _ => None
  end.

(** What evaluating a block's lines on one node leaves behind: the value
    variables, and the numbers shown under an alias. *)
Record Row := {
  vars : Env;
  shown : Env;
}.

Definition note (k : option string) (x : Q) (env : Env) : Env :=
  match k with Some v => (v, x) :: env | None => env end.

Definition eval_field (now : Q) (n : Node) (r : Row) (f : Field) : Row :=
  match f with
  | Pred alias var p =>
      match num n p with
      | Some x => {| vars := note var x (vars r); shown := note alias x (shown r) |}
      | None => r
      end
  | Count alias var p =>
      let x := match num n p with Some _ => 1%Q | None => 0%Q end in
      {| vars := note var x (vars r); shown := note alias x (shown r) |}
  | Math alias var e =>
      match eval_num now (vars r) e with
      | Some x => {| vars := note var x (vars r); shown := note alias x (shown r) |}
      | None => r
      end
  | Edge _ _ _ _ _ _ => r
  end.

Definition eval_fields (now : Q) (n : Node) (fs : list Field) : Row :=
  fold_left (eval_field now n) fs {| vars := []; shown := [] |}.

(** The value variable and the alias a line defines. *)
Definition field_var (f : Field) : option string :=
  match f with
  | Pred _ v _ | Count _ v _ | Math _ v _ => v
  | Edge _ _ _ _ _ _ => None
  end.

Definition field_alias (f : Field) : option string :=
  match f with
  | Pred a _ _ | Count a _ _ | Math a _ _ => a
  | Edge _ _ _ _ _ _ => None
  end.

Definition is_name (v : string) (k : option string) : bool :=
  match k with Some u => String.eqb v u | None => false end.

(** [cond(x > w, w, x)] as it evaluates. *)
Definition clip (x w : Q) : Q := if Qgtb x w then w else x.

(** [cond(isTerminated == 0, 0.0, since(et))] as it evaluates; [0.0] is
    read as the fraction 0/10. *)
Definition sinceEnd (now : Q) (endTime : option Q) : Q :=
  match endTime with Some et => (now - et)%Q | None => (0 # 10)%Q end.

(** The node [n] had it not ended. *)
Definition running (n : Node) : Node :=
  {| uid := uid n; str := str n; out := out n;
     num := fun p => if String.eqb p "endTime" then None else num n p |}.

End DQL.

(** ** What the file takes from outside

    [pod.go] uses constants and types declared in other files of the
    repository ([All] of package [query]; the default prices and [Pod] of
    package [models]; [JSONDataWrapper]) and Go's number formatting.  Their
    declarations are not part of this file, so the model is parametric in
    them. *)

Class Deps := {
  (** Go's [float64]; the code only passes such values around and prints
      them. *)
  float64 : Type;
  (** The zero value of [float64], left in a struct field that the decoded
      response does not mention. *)
  float64_zero : float64;
  (** [fmt.Sprintf("%f", x)]. *)
  Sprintf_f : float64 -> string;
  (** [strconv.FormatFloat(x, 'f', 11, 64)]. *)
  FormatFloat_f_11 : float64 -> string;
  (** The wildcard target, constant [All] of package [query]. *)
  All : string;
  DefaultCPUCostInFloat64 : float64;
  DefaultMemCostInFloat64 : float64;
  (** A string constant: it is spliced into the request text as it is. *)
  DefaultStorageCostPerGBPerHour : string;
  JSONDataWrapper : Type;
  (** The composite literal [JSONDataWrapper{}]. *)
  JSONDataWrapper_empty : JSONDataWrapper;
}.

(** Go's [error], represented by its message. *)
Definition error : Type := string.

Section Model.
Context `{D : Deps}.

(** ** Records *)

(** [models.Pod], restricted to the fields [pod.go] reads. *)
Record Pod := {
  UID : string;
  Name : string;
  CPUPrice : float64;
  MemoryPrice : float64;
}.

(** One object of the store's JSON response, before decoding: every field
    may be absent. *)
Record PodJSON := {
  json_uid : option string;
  json_name : option string;
  json_cpuPrice : option float64;
  json_memoryPrice : option float64;
}.

(** Decoding into [models.Pod] as [encoding/json] does: a field the object
    does not carry keeps its zero value. *)
Definition decodePod (j : PodJSON) : Pod :=
  {| UID := default "" (json_uid j);
     Name := default "" (json_name j);
     CPUPrice := default float64_zero (json_cpuPrice j);
     MemoryPrice := default float64_zero (json_memoryPrice j) |}.

(** ** The world: store, request trace, log, clock *)

(** The store is an external collaborator.  Its answer may depend on the
    request and on the requests it has seen before. *)
Record Store := {
  (** the answer to [dgraph.ExecuteQueryRaw] *)
  rawReply : list string -> string -> error + list Byte.byte;
  (** the answer to [dgraph.ExecuteQuery] into a struct with one field
      [Pods []models.Pod]: the objects under that field's JSON key *)
  podsReply : list string -> string -> error + list PodJSON;
  (** the answer to the query executed by [getJSONDataFromQuery] *)
  jsonReply : list string -> string -> error + JSONDataWrapper;
}.

Record World := {
  store : Store;
  (** requests sent to the store so far, oldest first *)
  calls : list string;
  (** lines written with [logrus.Errorf], oldest first *)
  logs : list string;
  (** [utils.GetSecondsSince(utils.GetCurrentMonthStartTime())] *)
  secondsSinceMonthStartNow : float64;
}.

Definition M (A : Type) : Type := World -> A * World.

Definition ret {A} (a : A) : M A := fun w => (a, w).

Definition bind {A B} (c : M A) (k : A -> M B) : M B :=
  fun w => let (a, w') := c w in k a w'.

Notation "'do' x <- c ;; k" := (bind c (fun x => k))
  (at level 10, x name, c at level 99, k at level 200).
Notation "'exec' c ;; k" := (bind c (fun _ => k))
  (at level 10, c at level 99, k at level 200).

Definition sent (q : string) (w : World) : World :=
  {| store := store w; calls := calls w ++ [q]; logs := logs w;
     secondsSinceMonthStartNow := secondsSinceMonthStartNow w |}.

Definition logged (msg : string) (w : World) : World :=
  {| store := store w; calls := calls w; logs := logs w ++ [msg];
     secondsSinceMonthStartNow := secondsSinceMonthStartNow w |}.

Definition Errorf (msg : string) : M unit := fun w => (tt, logged msg w).

Definition ExecuteQueryRaw (q : string) : M (error + list Byte.byte) :=
  fun w => (rawReply (store w) (calls w) q, sent q w).

Definition ExecuteQuery (q : string) : M (error + list Pod) :=
  fun w =>
    (match podsReply (store w) (calls w) q with
     | inl err => inl err
     | inr objs => inr (decodePod <$> objs)
     end, sent q w).

Definition GetSecondsSinceMonthStart : M float64 :=
  fun w => (secondsSinceMonthStartNow w, w).

(** [%v] of a [bool]. *)
Definition show_bool (b : bool) : string := if b then "true" else "false".

(** ** RetrievePodsInteractions *)

Definition interactionsQuery (name : string) (isOrphan : bool) : string :=
  if String.eqb name All then
    if isOrphan then
      "query {" +:+ nl +:+
      ln 4 "pods(func: has(isPod)) {" +:+
      ln 5 "name" +:+
      ln 5 "outbound: pod {" +:+
      ln 6 "name" +:+
      ln 5 "}" +:+
      ln 5 "inbound: ~pod @filter(has(isPod)) {" +:+
      ln 6 "name" +:+
      ln 5 "}" +:+
      ln 4 "}" +:+
      tabs 3 +:+ "}"
    else
      "query {" +:+ nl +:+
      ln 4 "pods(func: has(isPod)) @filter(has(pod)) {" +:+
      ln 5 "name" +:+
      ln 5 "outbound: pod {" +:+
      ln 6 "name" +:+
      ln 5 "}" +:+
      ln 5 "inbound: ~pod @filter(has(isPod)) {" +:+
      ln 6 "name" +:+
      ln 5 "}" +:+
      ln 4 "}" +:+
      tabs 3 +:+ "}"
  else
    "query {" +:+ nl +:+
    tabs 3 +:+ "pods(func: has(isPod)) @filter(eq(name, " +:+ dq +:+ name +:+ dq +:+ ")) {" +:+ nl +:+
    ln 4 "name" +:+
    ln 4 "outbound: pod {" +:+
    ln 5 "name" +:+
    ln 4 "}" +:+
    ln 4 "inbound: ~pod @filter(has(isPod)) {" +:+
    ln 5 "name" +:+
    ln 4 "}" +:+
    ln 3 "}" +:+
    tabs 2 +:+ "}".

Definition interactionsErrorLine (name : string) (isOrphan : bool) (err : error) : string :=
  "Error while retrieving query for pods interactions. Name: (" +:+ name +:+
  "), isOrphan: (" +:+ show_bool isOrphan +:+ "), error: (" +:+ err +:+ ")".

(** The result is a byte slice; [nil] is the empty list. *)
Definition RetrievePodsInteractions (name : string) (isOrphan : bool) : M (list Byte.byte) :=
  let query := interactionsQuery name isOrphan in
  do r <- ExecuteQueryRaw query ;;
  match r with
  | inl err => exec Errorf (interactionsErrorLine name isOrphan err) ;; ret []
  | inr result => ret result
  end.

(** ** getJSONDataFromQuery

    Modelled from the spec: [getJSONDataFromQuery] is defined in another file
    of package [query].  The spec (its Result Decoder and error handling
    sections) has it send the request it is given, hand back the decoded
    structure, and on a store or decode error log the failure and hand back
    an empty structure.  The text of its log line is not given; the model
    logs the error's message. *)
Definition getJSONDataFromQuery (query : string) : M JSONDataWrapper :=
  fun w =>
    match jsonReply (store w) (calls w) query with
    | inl err => (JSONDataWrapper_empty, logged err (sent query w))
    | inr data => (data, sent query w)
    end.

(** ** RetrievePodHierarchy *)

Definition wrongTypeLine : string :=
  "wrong type of query for pod, empty name is given".

Definition hierarchyQuery (name : string) : string :=
  "query {" +:+ nl +:+
  tabs 2 +:+ "parent(func: has(isPod)) @filter(eq(name, " +:+ dq +:+ name +:+ dq +:+ ")) {" +:+ nl +:+
  ln 3 "name" +:+
  ln 3 "type" +:+
  ln 3 "children: ~pod @filter(has(isContainer)) {" +:+
  ln 4 "name" +:+
  ln 4 "type" +:+
  ln 3 "}" +:+
  ln 2 "}" +:+
  tabs 1 +:+ "}".

Definition RetrievePodHierarchy (name : string) : M JSONDataWrapper :=
  if String.eqb name All then
    exec Errorf wrongTypeLine ;;
    ret JSONDataWrapper_empty
  else
    getJSONDataFromQuery (hierarchyQuery name).

(** ** getPricePerResourceForPod *)

Definition priceQuery (name : string) : string :=
  "query {" +:+ nl +:+
  tabs 2 +:+ "pod(func: has(isPod)) @filter(eq(name, " +:+ dq +:+ name +:+ dq +:+ ")) {" +:+ nl +:+
  ln 3 "cpuPrice" +:+
  ln 3 "memoryPrice" +:+
  ln 2 "}" +:+
  tabs 1 +:+ "}".

Definition getPricePerResourceForPod (name : string) : M (float64 * float64) :=
  do r <- ExecuteQuery (priceQuery name) ;;
  match r with
  | inl _ => ret (DefaultCPUCostInFloat64, DefaultMemCostInFloat64)
  | inr [] => ret (DefaultCPUCostInFloat64, DefaultMemCostInFloat64)
  | inr (pod :: _) => ret (CPUPrice pod, MemoryPrice pod)
  end.

(** ** RetrievePodMetrics *)

Definition metricsQuery (name secondsSinceMonthStart cpuPrice memoryPrice : string) : string :=
  "query {" +:+ nl +:+
  tabs 2 +:+ "parent(func: has(isPod)) @filter(eq(name, " +:+ dq +:+ name +:+ dq +:+ ")) {" +:+ nl +:+
  ln 3 "name" +:+
  ln 3 "type" +:+
  ln 3 "children: ~pod @filter(has(isContainer)) {" +:+
  ln 4 "name" +:+
  ln 4 "type" +:+
  ln 4 "stChild as startTime" +:+
  ln 4 "stSecondsChild as math(since(stChild))" +:+
  tabs 4 +:+ "secondsSinceStartChild as math(cond(stSecondsChild > " +:+ secondsSinceMonthStart +:+ ", " +:+ secondsSinceMonthStart +:+ ", stSecondsChild))" +:+ nl +:+
  ln 4 "etChild as endTime" +:+
  ln 4 "isTerminatedChild as count(endTime)" +:+
  ln 4 "secondsSinceEndChild as math(cond(isTerminatedChild == 0, 0.0, since(etChild)))" +:+
  ln 4 "durationInHoursChild as math((secondsSinceStartChild - secondsSinceEndChild) / 3600)" +:+
  ln 4 "cpu: cpu as cpuRequest" +:+
  ln 4 "memory: memory as memoryRequest" +:+
  tabs 4 +:+ "cpuCost: math(cpu * durationInHoursChild * " +:+ cpuPrice +:+ ")" +:+ nl +:+
  tabs 4 +:+ "memoryCost: math(memory * durationInHoursChild * " +:+ memoryPrice +:+ ")" +:+ nl +:+
  ln 3 "}" +:+
  ln 3 "cpu: podCpu as cpuRequest" +:+
  ln 3 "memory: podMemory as memoryRequest" +:+
  ln 3 "storage: pvcStorage as storageRequest" +:+
  ln 3 "st as startTime" +:+
  ln 3 "stSeconds as math(since(st))" +:+
  tabs 3 +:+ "secondsSinceStart as math(cond(stSeconds > " +:+ secondsSinceMonthStart +:+ ", " +:+ secondsSinceMonthStart +:+ ", stSeconds))" +:+ nl +:+
  ln 3 "et as endTime" +:+
  ln 3 "isTerminated as count(endTime)" +:+
  ln 3 "secondsSinceEnd as math(cond(isTerminated == 0, 0.0, since(et)))" +:+
  ln 3 "durationInHours as math((secondsSinceStart - secondsSinceEnd) / 3600)" +:+
  tabs 3 +:+ "cpuCost: math(podCpu * durationInHours * " +:+ cpuPrice +:+ ")" +:+ nl +:+
  tabs 3 +:+ "memoryCost: math(podMemory * durationInHours * " +:+ memoryPrice +:+ ")" +:+ nl +:+
  tabs 3 +:+ "storageCost: math(pvcStorage * durationInHours * " +:+ DefaultStorageCostPerGBPerHour +:+ ")" +:+ nl +:+
  ln 2 "}" +:+
  tabs 1 +:+ "}".

Definition RetrievePodMetrics (name : string) : M JSONDataWrapper :=
  if String.eqb name All then
    exec Errorf wrongTypeLine ;;
    ret JSONDataWrapper_empty
  else
    do seconds <- GetSecondsSinceMonthStart ;;
    let secondsSinceMonthStart := Sprintf_f seconds in
    do prices <- getPricePerResourceForPod name ;;
    let cpuPrice := FormatFloat_f_11 (fst prices) in
    let memoryPrice := FormatFloat_f_11 (snd prices) in
    getJSONDataFromQuery (metricsQuery name secondsSinceMonthStart cpuPrice memoryPrice).

(** ** RetrievePodsInteractionsForAllLivePodsWithCount *)

Definition livePodsQuery : string :=
  "query {" +:+ nl +:+
  ln 2 "pods(func: has(isPod)) @filter((NOT has(endTime))) {" +:+
  ln 3 "name" +:+
  ln 3 "pod {" +:+
  ln 4 "name" +:+
  ln 4 "count" +:+
  ln 3 "}" +:+
  ln 3 "cid: ~pod @filter(has(isService)) {" +:+
  ln 4 "name" +:+
  ln 3 "}" +:+
  ln 2 "}" +:+
  tabs 1 +:+ "}".

Definition RetrievePodsInteractionsForAllLivePodsWithCount : M (error + list Pod) :=
  do r <- ExecuteQuery livePodsQuery ;;
  match r with
  | inl err => ret (inl err)
  | inr pods => ret (inr pods)
  end.

(** ** removeDuplicates *)

(** One turn of the [for ... range pods] loop: the state is the map
    [duplicateChecker] and the slice [podsUIDs]. *)
Definition removeDuplicates_step (st : gmap string bool * list string) (pod : Pod)
  : gmap string bool * list string :=
  let (duplicateChecker, podsUIDs) := st in
  match duplicateChecker !! UID pod with
  | Some _ => (duplicateChecker, podsUIDs)
  | None => (<[UID pod := true]> duplicateChecker, podsUIDs ++ [UID pod])
  end.

Definition removeDuplicates (pods : list Pod) : list string :=
  snd (fold_left removeDuplicates_step pods (∅, [])).

(** ** createFilterFromListOfLabels

    A Go [map[string][]string] is ranged over in no fixed order; the model
    takes the map as the list of its entries in the order the loop meets
    them. *)
Definition Labels : Type := list (string * list string).

(** Every label/value pair of the mapping. *)
Definition labelPairs (labels : Labels) : list (string * string) :=
  flat_map (fun kv => map (pair (fst kv)) (snd kv)) labels.

(** Modelled from the spec: [createFilterFromListOfLabels] is defined in
    another file of package [query].  The spec has it build one predicate
    that combines all provided label/value pairs with OR and nothing else.
    The model writes a pair as a test of a label node's [key] and [value]
    predicates, in the filter syntax of the other requests; the spec fixes
    the predicate's meaning and not its spelling. *)
Definition labelsFilter (labels : Labels) : DQL.Filter :=
  DQL.FOr (map (fun kv => DQL.FAnd (DQL.FEq "key" (fst kv)) (DQL.FEq "value" (snd kv)))
               (labelPairs labels)).

Definition createFilterFromListOfLabels (labels : Labels) : string :=
  DQL.render_filter (labelsFilter labels).

(** ** RetrievePodsUIDsByLabelsFilter *)

Definition labelsQuery (labelFilter : string) : string :=
  "query {" +:+ nl +:+
  tabs 2 +:+ "var(func: has(isLabel)) @filter(" +:+ labelFilter +:+ ") {" +:+ nl +:+
  "            podUIDs as ~label @filter(has(isPod)) {" +:+ nl +:+
  ln 4 "name" +:+
  ln 3 "}" +:+
  ln 2 "}" +:+
  ln 2 "pods(func: uid(podUIDs)) {" +:+
  ln 3 "uid" +:+
  ln 3 "name" +:+
  ln 2 "}" +:+
  tabs 1 +:+ "}".

Definition RetrievePodsUIDsByLabelsFilter (labels : Labels) : M (error + list string) :=
  let labelFilter := createFilterFromListOfLabels labels in
  do r <- ExecuteQuery (labelsQuery labelFilter) ;;
  match r with
  | inl err => ret (inl err)
  | inr pods => ret (inr (removeDuplicates pods))
  end.

(** ** The requests as trees *)

Import DQL.

Definition plain (p : string) : Field := Pred None None p.

Definition interactionsBody : list Field :=
  [ plain "name";
    Edge None (Some "outbound") None "pod" None [plain "name"];
    Edge None (Some "inbound") None "~pod" (Some (FHas "isPod")) [plain "name"] ].

Definition interactionsFilter (name : string) (isOrphan : bool) : option Filter :=
  if String.eqb name All then
    if isOrphan then None else Some (FHas "pod")
  else Some (FEq "name" name).

Definition interactionsBlock (name : string) (isOrphan : bool) : Block :=
  {| blk_name := "pods"; blk_func := FuncHas "isPod";
     blk_filter := interactionsFilter name isOrphan;
     blk_body := interactionsBody |}.

(** The lines that turn a node's life span into hours inside the billing
    window; [sfx] is the ending of the variable names ([Child] for the
    containers, nothing for the pod) and [W] the literal for the seconds
    since the month began. *)
Definition elapsedFields (sfx W : string) : list Field :=
  [ Pred None (Some ("st" +:+ sfx)) "startTime";
    Math None (Some ("stSeconds" +:+ sfx)) (ESince (EVar ("st" +:+ sfx)));
    Math None (Some ("secondsSinceStart" +:+ sfx))
      (ECond (EGt (EVar ("stSeconds" +:+ sfx)) (ENum W)) (ENum W)
             (EVar ("stSeconds" +:+ sfx)));
    Pred None (Some ("et" +:+ sfx)) "endTime";
    Count None (Some ("isTerminated" +:+ sfx)) "endTime";
    Math None (Some ("secondsSinceEnd" +:+ sfx))
      (ECond (EEq (EVar ("isTerminated" +:+ sfx)) (ENum "0")) (ENum "0.0")
             (ESince (EVar ("et" +:+ sfx))));
    Math None (Some ("durationInHours" +:+ sfx))
      (EDiv (ESub (EVar ("secondsSinceStart" +:+ sfx)) (EVar ("secondsSinceEnd" +:+ sfx)))
            (ENum "3600")) ].

Definition costField (alias quantity hours price : string) : Field :=
  Math (Some alias) None (EMul (EMul (EVar quantity) (EVar hours)) (ENum price)).

Definition childFields (W cpuPrice memoryPrice : string) : list Field :=
  [ plain "name"; plain "type" ] ++
  elapsedFields "Child" W ++
  [ Pred (Some "cpu") (Some "cpu") "cpuRequest";
    Pred (Some "memory") (Some "memory") "memoryRequest";
    costField "cpuCost" "cpu" "durationInHoursChild" cpuPrice;
    costField "memoryCost" "memory" "durationInHoursChild" memoryPrice ].

Definition parentFields (W cpuPrice memoryPrice : string) : list Field :=
  [ Pred (Some "cpu") (Some "podCpu") "cpuRequest";
    Pred (Some "memory") (Some "podMemory") "memoryRequest";
    Pred (Some "storage") (Some "pvcStorage") "storageRequest" ] ++
  elapsedFields "" W ++
  [ costField "cpuCost" "podCpu" "durationInHours" cpuPrice;
    costField "memoryCost" "podMemory" "durationInHours" memoryPrice;
    costField "storageCost" "pvcStorage" "durationInHours" DefaultStorageCostPerGBPerHour ].

Definition metricsBlock (name W cpuPrice memoryPrice : string) : Block :=
  {| blk_name := "parent"; blk_func := FuncHas "isPod";
     blk_filter := Some (FEq "name" name);
     blk_body :=
       [ plain "name"; plain "type";
         Edge None (Some "children") None "~pod" (Some (FHas "isContainer"))
              (childFields W cpuPrice memoryPrice) ] ++
       parentFields W cpuPrice memoryPrice |}.

Definition labelsBlocks (flt : Filter) : list Block :=
  [ {| blk_name := "var"; blk_func := FuncHas "isLabel";
       blk_filter := Some flt;
       blk_body :=
         [ Edge (Some "            ") None (Some "podUIDs") "~label" (Some (FHas "isPod"))
                [plain "name"] ] |};
    {| blk_name := "pods"; blk_func := FuncUid "podUIDs";
       blk_filter := None;
       blk_body := [plain "uid"; plain "name"] |} ].

(** ** The request of RetrievePodMetrics in a given world *)

(** The three literals [RetrievePodMetrics] splices into its request when it
    runs in world [w]: the seconds since the month began, and the two prices
    [getPricePerResourceForPod] hands back. *)
Definition metricsSeconds (w : World) : string :=
  Sprintf_f (secondsSinceMonthStartNow w).

Definition metricsCPUPrice (name : string) (w : World) : string :=
  FormatFloat_f_11 (fst (fst (getPricePerResourceForPod name w))).

Definition metricsMemoryPrice (name : string) (w : World) : string :=
  FormatFloat_f_11 (snd (fst (getPricePerResourceForPod name w))).

Definition metricsText (name : string) (w : World) : string :=
  metricsQuery name (metricsSeconds w) (metricsCPUPrice name w) (metricsMemoryPrice name w).

(** What the request computes for the pod [n], and for a container [c],
    when the store evaluates it at time [now]. *)
Definition parentRow (now : Q) (n : Node) (name W cpuPrice memoryPrice : string) : Row :=
  eval_fields now n (blk_body (metricsBlock name W cpuPrice memoryPrice)).

Definition childRow (now : Q) (c : Node) (W cpuPrice memoryPrice : string) : Row :=
  eval_fields now c (childFields W cpuPrice memoryPrice).

(** A decoded pod that carries an identifier and a name. *)
Definition podOf (u name : string) : Pod :=
  {| UID := u; Name := name; CPUPrice := float64_zero; MemoryPrice := float64_zero |}.

End Model.

Import DQL.

(** ** The other requests as trees *)

(** The nodes a block lists under the edge line [f] of a root [n]. *)
Definition listed (g : Graph) (f : Field) (n : Node) : list Node :=
  match f with
  | Edge _ _ _ edge flt _ => List.filter (fun m => holds_at m flt) (follow g edge n)
  | _ => []
  end.

Definition outboundEdge : Field :=
  Edge None (Some "outbound") None "pod" None [plain "name"].

Definition inboundEdge : Field :=
  Edge None (Some "inbound") None "~pod" (Some (FHas "isPod")) [plain "name"].

Definition hierarchyChildren : Field :=
  Edge None (Some "children") None "~pod" (Some (FHas "isContainer"))
       [plain "name"; plain "type"].

Definition hierarchyBlock (name : string) : Block :=
  {| blk_name := "parent"; blk_func := FuncHas "isPod";
     blk_filter := Some (FEq "name" name);
     blk_body := [plain "name"; plain "type"; hierarchyChildren] |}.

Definition metricsChildren (W cpuPrice memoryPrice : string) : Field :=
  Edge None (Some "children") None "~pod" (Some (FHas "isContainer"))
       (childFields W cpuPrice memoryPrice).

Definition priceBlock (name : string) : Block :=
  {| blk_name := "pod"; blk_func := FuncHas "isPod";
     blk_filter := Some (FEq "name" name);
     blk_body := [plain "cpuPrice"; plain "memoryPrice"] |}.

Definition livePodsBlock : Block :=
  {| blk_name := "pods"; blk_func := FuncHas "isPod";
     blk_filter := Some (FNot (FHas "endTime"));
     blk_body :=
       [ plain "name";
         Edge None None None "pod" None [plain "name"; plain "count"];
         Edge None (Some "cid") None "~pod" (Some (FHas "isService")) [plain "name"] ] |}.

(** A target that closes the quoted name after [a] and goes on with a
    second test, for the name [b]. *)
Definition splicedTarget (a b : string) : string :=
  a +:+ dq +:+ ") OR eq(name, " +:+ dq +:+ b.

Definition eitherNameBlock (a b : string) : Block :=
  {| blk_name := "pods"; blk_func := FuncHas "isPod";
     blk_filter := Some (FOr [FEq "name" a; FEq "name" b]);
     blk_body := interactionsBody |}.

(** The hours of a node that started at [st] and ended at [et], by where
    its start lies against the window of [w] seconds that ends at [now]. *)
Definition EndedSpan (now st w et : Q) (hours : option Q) : Prop :=
  exists d,
    hours = Some d /\
    ((now - st <= w)%Q -> (d == (et - st) / 3600)%Q) /\
    ((w <= now - st)%Q -> (d == (et - (now - w)) / 3600)%Q).

(** When the hours of an ended node are not negative. *)
Definition HoursSign (now st w et : Q) (hours : option Q) : Prop :=
  exists d,
    hours = Some d /\
    ((0 <= d)%Q <-> (st <= et)%Q /\ (now - w <= et)%Q).

(** ** Words of the specification *)

(** An orphan is a node with no outbound selection edge; the selection edge
    is the predicate [pod]. *)
Definition orphan (n : Node) : bool := negb (has "pod" n).

(** The distinct identifiers of a sequence in first-occurrence order: the
    entry at position [i] stays when it occurs nowhere before [i]. *)
Definition first_occurrences (l : list string) : list string :=
  omap id (imap (fun i x => if bool_decide (x ∈ take i l) then None else Some x) l).

(** The in-window hours of a node that started at [st] and, when [et] is
    given, ended at [et], seen at time [now], [w] seconds into the billing
    window. *)
Definition secondsInWindow (now st w : Q) : Q := Qmin (now - st) w.

Definition hoursInWindow (now st w : Q) (et : option Q) : Q :=
  match et with
  | None => secondsInWindow now st w / 3600
  | Some t => (secondsInWindow now st w - (now - t)) / 3600
  end.

(** What the specification asks of the seconds and of the hours computed
    for a node started at [st], [w] seconds into the window. *)
Definition InWindow (now st w : Q) (endTime : option Q) (seconds hours : option Q) : Prop :=
  exists s d,
    seconds = Some s /\ hours = Some d /\
    (s == secondsInWindow now st w)%Q /\ (s <= w)%Q /\
    (d == hoursInWindow now st w endTime)%Q /\
    (endTime = None ->
       ((w <= now - st)%Q -> (d == w / 3600)%Q) /\
       ((now - st <= w)%Q -> (d == (now - st) / 3600)%Q)).

(** What holds of the hours [hT] computed for a node that ended at [et] and
    of the hours [hR] computed for the same node had it not ended. *)
Definition EndedHours (now st w et : Q) (hT hR : option Q) : Prop :=
  exists dT dR,
    hT = Some dT /\ hR = Some dR /\
    (dT == (secondsInWindow now st w - (now - et)) / 3600)%Q /\
    ((dT < dR)%Q <-> (et < now)%Q) /\
    ((dT <= dR)%Q <-> (et <= now)%Q).

(** ** A concrete setting

    Numbers are counted in units of 10^-11 and printed in full, so printing
    loses nothing for amounts such as prices.  The setting serves to run the
    model on closed inputs. *)

Definition digit_char (k : N) : ascii := ascii_of_N (48 + k).

(** The last [k] decimal digits of [x]. *)
Fixpoint fixed_digits (k : nat) (x : N) : string :=
  match k with
  | O => ""
  | S k' => fixed_digits k' (x / 10) +:+ String (digit_char (x mod 10)) ""
  end.

Definition show_fixed (places : nat) (x : N) : string :=
  let unit := (10 ^ N.of_nat places)%N in
  NilZero.string_of_uint (N.to_uint (x / unit)) +:+ "." +:+ fixed_digits places (x mod unit).

Definition fixedDeps (all : string) : Deps :=
  {| float64 := N;
     float64_zero := 0%N;
     Sprintf_f := fun x => show_fixed 6 ((x + 50000) / 100000);
     FormatFloat_f_11 := show_fixed 11;
     All := all;
     DefaultCPUCostInFloat64 := 2400000000%N;
     DefaultMemCostInFloat64 := 1000000000%N;
     DefaultStorageCostPerGBPerHour := "0.00013888888";
     JSONDataWrapper := option string;
     JSONDataWrapper_empty := None |}.

(** A store that is down: every request fails. *)
Definition downStore {D : Deps} : Store :=
  {| rawReply := fun _ _ => inl "connection refused";
     podsReply := fun _ _ => inl "connection refused";
     jsonReply := fun _ _ => inl "connection refused" |}.

(** A store that answers the price lookup with the given objects. *)
Definition priceStore {D : Deps} (objs : list PodJSON) (data : JSONDataWrapper) : Store :=
  {| rawReply := fun _ _ => inr [];
     podsReply := fun _ _ => inr objs;
     jsonReply := fun _ _ => inr data |}.

Definition freshWorld {D : Deps} (s : Store) (seconds : float64) : World :=
  {| store := s; calls := []; logs := []; secondsSinceMonthStartNow := seconds |}.

(** A node that carries the given numbers and nothing else. *)
Definition numbersNode (u : string) (nums : list (string * Q)) : Node :=
  {| uid := u; str := fun _ => None; num := fun p => value_of p nums; out := fun _ => [] |}.

(** A pod with a name and, maybe, selection edges. *)
Definition podNode (u name : string) (targets : list string) : Node :=
  {| uid := u;
     str := fun p => if String.eqb p "name" then Some name
                     else if String.eqb p "isPod" then Some "" else None;
     num := fun _ => None;
     out := fun p => if String.eqb p "pod" then targets else [] |}.

(** A response object for a pod that carries no price.  The price lookup
    asks for the two prices only, so the object carries nothing else. *)
Definition bareObject {D : Deps} : PodJSON :=
  {| json_uid := None; json_name := None;
     json_cpuPrice := None; json_memoryPrice := None |}.

(** A response object that carries a CPU price of 0.05 and no memory price. *)
Definition cpuOnlyObject : @PodJSON (fixedDeps "") :=
  @Build_PodJSON (fixedDeps "") None None (Some 5000000000%N) None.

(** A target that closes the quoted name and goes on with filter text. *)
Definition craftedTarget : string :=
  "a" +:+ dq +:+ ") OR eq(name, " +:+ dq +:+ "b".

(** A pod that started at second 0, asks for 2 CPUs, 4 GB of memory and
    10 GB of storage; [ended] is the second it ended at, if it did. *)
Definition samplePod (ended : option Q) : Node :=
  numbersNode "0x1"
    (match ended with Some et => [("endTime", et)] | None => [] end ++
     [("startTime", 0%Q); ("cpuRequest", 2%Q); ("memoryRequest", 4%Q);
      ("storageRequest", 10%Q)]).

(** A container that started at second 50 and asks for 1 CPU and 2 GB. *)
Definition sampleContainer : Node :=
  numbersNode "0x2" [("startTime", 50%Q); ("cpuRequest", 1%Q); ("memoryRequest", 2%Q)].

(** The world of the sample runs: the store is down, or answers the price
    lookup with one object that carries a CPU price only; 1000 seconds of
    the month have passed. *)
Definition downWorld : @World (fixedDeps "") :=
  @freshWorld (fixedDeps "") downStore 100000000000000%N.

Definition pricedWorld : @World (fixedDeps "") :=
  @freshWorld (fixedDeps "") (@priceStore (fixedDeps "") [cpuOnlyObject] None) 100000000000000%N.

(** A label node and a pod tied to given label nodes. *)
Definition labelNode (u key value : string) : Node :=
  {| uid := u;
     str := fun p => if String.eqb p "key" then Some key
                     else if String.eqb p "value" then Some value
                     else if String.eqb p "isLabel" then Some "" else None;
     num := fun _ => None;
     out := fun _ => [] |}.

Definition labelledPod (u name : string) (labels : list string) : Node :=
  {| uid := u;
     str := fun p => if String.eqb p "name" then Some name
                     else if String.eqb p "isPod" then Some "" else None;
     num := fun _ => None;
     out := fun p => if String.eqb p "label" then labels else [] |}.

Definition labelledGraph : Graph :=
  [ labelNode "0xa" "tier" "frontend"; labelNode "0xb" "env" "prod";
    labelNode "0xc" "tier" "db"; labelNode "0xd" "env" "test";
    labelledPod "0x1" "shop" ["0xb"];
    labelledPod "0x2" "store" ["0xc"; "0xd"];
    labelledPod "0x3" "front" ["0xa"; "0xd"] ].

Definition sampleLabels : Labels := [("tier", ["frontend"; "backend"]); ("env", ["prod"])].

(** A container that started at second 50 and ended at second 80. *)
Definition endedContainer : Node :=
  numbersNode "0x2"
    [("startTime", 50%Q); ("endTime", 80%Q); ("cpuRequest", 1%Q); ("memoryRequest", 2%Q)].



(** Two pods, the first of which selects the second. *)
Definition pairGraph : Graph :=
  [podNode "0x1" "web" ["0x2"]; podNode "0x2" "db" []].

Section Properties.
Context `{D : Deps}.

(** * Properties *)

(** ** Every request text is the printed form of its tree *)

Lemma append_assoc (a b c : string) : (a +:+ b) +:+ c = a +:+ (b +:+ c).
Proof.
  induction a as [|x a IH]; [reflexivity|].
  change (String x ((a +:+ b) +:+ c) = String x (a +:+ (b +:+ c))).
  now rewrite IH.
Qed.

Lemma append_nil_r (a : string) : a +:+ "" = a.
Proof.
  induction a as [|x a IH]; [reflexivity|].
  change (String x (a +:+ "") = String x a).
  now rewrite IH.
Qed.

(** Unfold the printer, bring both sides to right-nested appends, compare. *)
Ltac same_text :=
  cbv [render render_block render_field render_filter render_expr render_names
       render_at render_func paren ln tabs map String.concat default Nat.ltb Nat.leb
       blk_name blk_func blk_filter blk_body app plain costField elapsedFields
       parentFields childFields interactionsBody];
  rewrite ?append_assoc, ?append_nil_r;
  reflexivity.

Lemma interactionsQuery_tree (name : string) (isOrphan : bool) :
  interactionsQuery name isOrphan =
  render (if String.eqb name All then 3 else 2) [interactionsBlock name isOrphan].
Proof.
  unfold interactionsQuery, interactionsBlock, interactionsFilter.
  destruct (String.eqb name All); [destruct isOrphan|]; same_text.
Qed.

Lemma metricsQuery_tree (name W cpuPrice memoryPrice : string) :
  metricsQuery name W cpuPrice memoryPrice =
  render 1 [metricsBlock name W cpuPrice memoryPrice].
Proof.
  unfold metricsQuery, metricsBlock.
  same_text.
Qed.

Lemma labelsQuery_tree (flt : Filter) :
  labelsQuery (render_filter flt) = render 1 (labelsBlocks flt).
Proof.
  unfold labelsQuery, labelsBlocks.
  (* keep the text of [flt] folded while the rest of the printer unfolds *)
  generalize (eq_refl (render_filter flt)).
  generalize (render_filter flt) at 1 3 as text; intros text Htext.
  cbv [render render_block render_field render_names render_at render_func ln tabs map
       String.concat default blk_name blk_func blk_filter blk_body plain].
  rewrite <- Htext.
  cbv [render_filter].
  rewrite ?append_assoc, ?append_nil_r.
  reflexivity.
Qed.

(** ** Evaluating the lines of a block *)

Section Rows.
Variables (now : Q) (n : Node).

Lemma value_of_note (v : string) (k : option string) (x : Q) (env : Env) :
  is_name v k = false -> value_of v (note k x env) = value_of v env.
Proof.
  destruct k as [u|]; simpl; [|reflexivity]. now intros ->.
Qed.

Lemma eval_field_keeps_var (v : string) (r : Row) (f : Field) :
  is_name v (field_var f) = false ->
  value_of v (vars (eval_field now n r f)) = value_of v (vars r).
Proof.
  intros H. destruct f as [a u p|a u p|a u e|]; simpl in *; try reflexivity.
  - destruct (num n p); simpl; [now apply value_of_note | reflexivity].
  - now apply value_of_note.
  - destruct (eval_num now (vars r) e); simpl; [now apply value_of_note | reflexivity].
Qed.

Lemma eval_field_keeps_shown (v : string) (r : Row) (f : Field) :
  is_name v (field_alias f) = false ->
  value_of v (shown (eval_field now n r f)) = value_of v (shown r).
Proof.
  intros H. destruct f as [a u p|a u p|a u e|]; simpl in *; try reflexivity.
  - destruct (num n p); simpl; [now apply value_of_note | reflexivity].
  - now apply value_of_note.
  - destruct (eval_num now (vars r) e); simpl; [now apply value_of_note | reflexivity].
Qed.

(** Lines that do not bind [v] leave [v] as it was. *)
Lemma fold_keeps_var (v : string) (fs : list Field) (r : Row) :
  forallb (fun f => negb (is_name v (field_var f))) fs = true ->
  value_of v (vars (fold_left (eval_field now n) fs r)) = value_of v (vars r).
Proof.
  revert r. induction fs as [|f fs IH]; intros r H; [reflexivity|].
  simpl in H. apply andb_prop in H as [Hf Hfs]. simpl.
  rewrite IH by exact Hfs. apply eval_field_keeps_var.
  now apply negb_true_iff.
Qed.

Lemma fold_keeps_shown (v : string) (fs : list Field) (r : Row) :
  forallb (fun f => negb (is_name v (field_alias f))) fs = true ->
  value_of v (shown (fold_left (eval_field now n) fs r)) = value_of v (shown r).
Proof.
  revert r. induction fs as [|f fs IH]; intros r H; [reflexivity|].
  simpl in H. apply andb_prop in H as [Hf Hfs]. simpl.
  rewrite IH by exact Hfs. apply eval_field_keeps_shown.
  now apply negb_true_iff.
Qed.

Lemma clip_min (x w : Q) : (clip x w == Qmin x w)%Q.
Proof.
  unfold clip, Qgtb. destruct (Qle_bool x w) eqn:E; simpl.
  - apply Qle_bool_iff in E. symmetry. now apply Q.min_l.
  - assert (~ (x <= w)%Q) by (intros H; apply Qle_bool_iff in H; congruence).
    symmetry. apply Q.min_r. lra.
Qed.

Lemma clip_Some (x w : Q) : (if Qgtb x w then Some w else Some x) = Some (clip x w).
Proof. unfold clip. now destruct (Qgtb x w). Qed.

Lemma fold_step (f : Field) (fs : list Field) (r : Row) :
  fold_left (eval_field now n) (f :: fs) r =
  fold_left (eval_field now n) fs (eval_field now n r f).
Proof. reflexivity. Qed.

Lemma parse_0 : parse_decimal "0" = Some 0%Q.
Proof. reflexivity. Qed.

Lemma parse_0_0 : parse_decimal "0.0" = Some (0 # 10)%Q.
Proof. reflexivity. Qed.

Lemma parse_3600 : parse_decimal "3600" = Some (3600 # 1)%Q.
Proof. reflexivity. Qed.

Lemma Qeq_bool_1_0 : Qeq_bool 1 0 = false.
Proof. reflexivity. Qed.

Lemma Qeq_bool_0_0 : Qeq_bool 0 0 = true.
Proof. reflexivity. Qed.

(** One line of symbolic execution: evaluate the next field on an explicit
    row, using what is known of the node and of the literals. *)
Ltac field_step :=
  rewrite fold_step; cbn [eval_field];
  repeat match goal with
         | H : num _ _ = _ |- _ => rewrite H
         end;
  cbn [eval_num eval_bool value_of note vars shown String.eqb Ascii.eqb Bool.eqb option_map];
  repeat match goal with
         | H : parse_decimal _ = _ |- _ => rewrite H
         end;
  rewrite ?parse_0, ?parse_0_0, ?parse_3600, ?Qeq_bool_1_0, ?Qeq_bool_0_0, ?clip_Some;
  cbn [eval_num eval_bool value_of note vars shown String.eqb Ascii.eqb Bool.eqb option_map].

Lemma elapsed_parent (W : string) (w st : Q) (r : Row) :
  num n "startTime" = Some st ->
  parse_decimal W = Some w ->
  let r' := fold_left (eval_field now n) (elapsedFields "" W) r in
  value_of "secondsSinceStart" (vars r') = Some (clip (now - st)%Q w)
  /\ value_of "secondsSinceEnd" (vars r') = Some (sinceEnd now (num n "endTime"))
  /\ value_of "durationInHours" (vars r') =
     Some ((clip (now - st) w - sinceEnd now (num n "endTime")) / (3600 # 1))%Q.
Proof.
  intros Hst HW. destruct r as [env sh].
  unfold elapsedFields. cbv [String.append].
  destruct (num n "endTime") as [et|] eqn:Het.
  - do 7 field_step. cbn. auto.
  - do 7 field_step. cbn. auto.
Qed.

Lemma elapsed_child (W : string) (w st : Q) (r : Row) :
  num n "startTime" = Some st ->
  parse_decimal W = Some w ->
  let r' := fold_left (eval_field now n) (elapsedFields "Child" W) r in
  value_of "secondsSinceStartChild" (vars r') = Some (clip (now - st)%Q w)
  /\ value_of "secondsSinceEndChild" (vars r') = Some (sinceEnd now (num n "endTime"))
  /\ value_of "durationInHoursChild" (vars r') =
     Some ((clip (now - st) w - sinceEnd now (num n "endTime")) / (3600 # 1))%Q.
Proof.
  intros Hst HW. destruct r as [env sh].
  unfold elapsedFields. cbv [String.append].
  destruct (num n "endTime") as [et|] eqn:Het.
  - do 7 field_step. cbn. auto.
  - do 7 field_step. cbn. auto.
Qed.

Lemma in_window (w st : Q) (endTime : option Q) :
  InWindow now st w endTime
    (Some (clip (now - st)%Q w))
    (Some ((clip (now - st) w - sinceEnd now endTime) / (3600 # 1))%Q).
Proof.
  exists (clip (now - st)%Q w), ((clip (now - st) w - sinceEnd now endTime) / (3600 # 1))%Q.
  pose proof (clip_min (now - st)%Q w) as Hc.
  split; [reflexivity|]. split; [reflexivity|].
  split; [exact Hc|]. split; [rewrite Hc; apply Q.le_min_r|].
  split.
  - unfold hoursInWindow, secondsInWindow. rewrite Hc.
    destruct endTime as [et|]; simpl; [reflexivity|].
    field.
  - intros ->. simpl. rewrite Hc. split; intros H.
    + rewrite (Q.min_r _ _ H). field.
    + rewrite (Q.min_l _ _ H). field.
Qed.

Lemma ended_hours (w st et : Q) :
  EndedHours now st w et
    (Some ((clip (now - st) w - sinceEnd now (Some et)) / (3600 # 1))%Q)
    (Some ((clip (now - st) w - sinceEnd now None) / (3600 # 1))%Q).
Proof.
  eexists _, _. split; [reflexivity|]. split; [reflexivity|].
  pose proof (clip_min (now - st)%Q w) as Hc.
  unfold secondsInWindow. rewrite <- Hc. simpl sinceEnd.
  generalize (clip (now - st)%Q w) as s. intros s.
  split; [reflexivity|].
  assert (E1 : ((s - (now - et)) / (3600 # 1) == (s - (now - et)) * (1 # 3600))%Q) by field.
  assert (E2 : ((s - (0 # 10)) / (3600 # 1) == s * (1 # 3600))%Q) by field.
  rewrite E1, E2. split; split; intros H; lra.
Qed.

(** A variable bound from a predicate the node has keeps that value to the
    end when no later line binds it again. *)
Lemma fold_binds_pred (fs1 fs2 : list Field) (a : option string) (v p : string)
      (r : Row) (x : Q) :
  num n p = Some x ->
  forallb (fun f => negb (is_name v (field_var f))) fs2 = true ->
  value_of v (vars (fold_left (eval_field now n) (fs1 ++ Pred a (Some v) p :: fs2) r)) = Some x.
Proof.
  intros Hp H2. rewrite fold_left_app, fold_step, fold_keeps_var by exact H2.
  cbn [eval_field]. rewrite Hp. cbn [vars note value_of]. now rewrite String.eqb_refl.
Qed.

(** A cost line multiplies what its two variables hold by its literal. *)
Lemma fold_cost (fs1 fs2 : list Field) (alias q h price : string) (r : Row) (x d p : Q) :
  value_of q (vars (fold_left (eval_field now n) fs1 r)) = Some x ->
  value_of h (vars (fold_left (eval_field now n) fs1 r)) = Some d ->
  parse_decimal price = Some p ->
  forallb (fun f => negb (is_name alias (field_alias f))) fs2 = true ->
  value_of alias
    (shown (fold_left (eval_field now n) (fs1 ++ costField alias q h price :: fs2) r))
  = Some (x * d * p)%Q.
Proof.
  intros Hq Hh Hp H2. rewrite fold_left_app, fold_step, fold_keeps_shown by exact H2.
  unfold costField. cbn [eval_field eval_num]. rewrite Hq, Hh, Hp.
  cbn [shown note value_of]. now rewrite String.eqb_refl.
Qed.

Lemma parent_vars (name W cp mp : string) (w st : Q) :
  num n "startTime" = Some st ->
  parse_decimal W = Some w ->
  value_of "secondsSinceStart" (vars (parentRow now n name W cp mp)) =
    Some (clip (now - st)%Q w)
  /\ value_of "durationInHours" (vars (parentRow now n name W cp mp)) =
    Some ((clip (now - st) w - sinceEnd now (num n "endTime")) / (3600 # 1))%Q.
Proof.
  intros Hst HW. unfold parentRow, eval_fields.
  change (blk_body (metricsBlock name W cp mp)) with
    ([ plain "name"; plain "type";
       Edge None (Some "children") None "~pod" (Some (FHas "isContainer")) (childFields W cp mp);
       Pred (Some "cpu") (Some "podCpu") "cpuRequest";
       Pred (Some "memory") (Some "podMemory") "memoryRequest";
       Pred (Some "storage") (Some "pvcStorage") "storageRequest" ] ++
     elapsedFields "" W ++
     [ costField "cpuCost" "podCpu" "durationInHours" cp;
       costField "memoryCost" "podMemory" "durationInHours" mp;
       costField "storageCost" "pvcStorage" "durationInHours" DefaultStorageCostPerGBPerHour ]).
  rewrite 2!fold_left_app.
  match goal with |- context [fold_left _ (elapsedFields _ _) ?r] =>
    destruct (elapsed_parent W w st r Hst HW) as (H1 & _ & H3) end.
  split; (rewrite fold_keeps_var by reflexivity); assumption.
Qed.

Lemma child_vars (W cp mp : string) (w st : Q) :
  num n "startTime" = Some st ->
  parse_decimal W = Some w ->
  value_of "secondsSinceStartChild" (vars (childRow now n W cp mp)) =
    Some (clip (now - st)%Q w)
  /\ value_of "durationInHoursChild" (vars (childRow now n W cp mp)) =
    Some ((clip (now - st) w - sinceEnd now (num n "endTime")) / (3600 # 1))%Q.
Proof.
  intros Hst HW. unfold childRow, eval_fields, childFields.
  rewrite 2!fold_left_app.
  match goal with |- context [fold_left _ (elapsedFields _ _) ?r] =>
    destruct (elapsed_child W w st r Hst HW) as (H1 & _ & H3) end.
  split; (rewrite fold_keeps_var by reflexivity); assumption.
Qed.

End Rows.

Lemma running_startTime (n : Node) : num (running n) "startTime" = num n "startTime".
Proof. reflexivity. Qed.

Lemma running_endTime (n : Node) : num (running n) "endTime" = None.
Proof. reflexivity. Qed.

Lemma parent_costs (now : Q) (n : Node) (name W cp mp : string) (w st : Q) :
  num n "startTime" = Some st ->
  parse_decimal W = Some w ->
  exists d,
    value_of "durationInHours" (vars (parentRow now n name W cp mp)) = Some d
    /\ (forall q p, num n "cpuRequest" = Some q -> parse_decimal cp = Some p ->
          value_of "cpuCost" (shown (parentRow now n name W cp mp)) = Some (q * d * p)%Q)
    /\ (forall q p, num n "memoryRequest" = Some q -> parse_decimal mp = Some p ->
          value_of "memoryCost" (shown (parentRow now n name W cp mp)) = Some (q * d * p)%Q)
    /\ (forall q p, num n "storageRequest" = Some q ->
          parse_decimal DefaultStorageCostPerGBPerHour = Some p ->
          value_of "storageCost" (shown (parentRow now n name W cp mp)) = Some (q * d * p)%Q).
Proof.
  intros Hst HW.
  destruct (parent_vars now n name W cp mp w st Hst HW) as [_ Hd].
  eexists. split; [exact Hd|].
  set (pre := [ plain "name"; plain "type";
       Edge None (Some "children") None "~pod" (Some (FHas "isContainer")) (childFields W cp mp)]).
  set (cpu := Pred (Some "cpu") (Some "podCpu") "cpuRequest").
  set (mem := Pred (Some "memory") (Some "podMemory") "memoryRequest").
  set (sto := Pred (Some "storage") (Some "pvcStorage") "storageRequest").
  set (c1 := costField "cpuCost" "podCpu" "durationInHours" cp).
  set (c2 := costField "memoryCost" "podMemory" "durationInHours" mp).
  set (c3 := costField "storageCost" "pvcStorage" "durationInHours" DefaultStorageCostPerGBPerHour).
  assert (Hdur : forall fs2,
    forallb (fun f => negb (is_name "durationInHours" (field_var f))) fs2 = true ->
    value_of "durationInHours"
      (vars (fold_left (eval_field now n)
               ((pre ++ [cpu; mem; sto] ++ elapsedFields "" W) ++ fs2) {| vars := []; shown := [] |}))
    = Some ((clip (now - st) w - sinceEnd now (num n "endTime")) / (3600 # 1))%Q).
  { intros fs2 H2. rewrite fold_left_app, fold_keeps_var by exact H2.
    rewrite app_assoc, fold_left_app.
    match goal with |- context [fold_left _ (elapsedFields _ _) ?r] =>
      destruct (elapsed_parent now n W w st r Hst HW) as (_ & _ & H3) end.
    exact H3. }
  unfold parentRow, eval_fields.
  split; [|split]; intros q p Hq Hp.
  - change (blk_body (metricsBlock name W cp mp)) with
      ((pre ++ [cpu; mem; sto] ++ elapsedFields "" W) ++ c1 :: [c2; c3]).
    apply fold_cost; [| |exact Hp|reflexivity].
    + change (pre ++ [cpu; mem; sto] ++ elapsedFields "" W) with
        (pre ++ cpu :: ([mem; sto] ++ elapsedFields "" W)).
      apply fold_binds_pred; [exact Hq|reflexivity].
    + rewrite <- (app_nil_r (pre ++ _)). apply Hdur. reflexivity.
  - change (blk_body (metricsBlock name W cp mp)) with
      (((pre ++ [cpu; mem; sto] ++ elapsedFields "" W) ++ [c1]) ++ c2 :: [c3]).
    apply fold_cost; [| |exact Hp|reflexivity].
    + change ((pre ++ [cpu; mem; sto] ++ elapsedFields "" W) ++ [c1]) with
        ((pre ++ [cpu]) ++ mem :: ([sto] ++ elapsedFields "" W ++ [c1])).
      apply fold_binds_pred; [exact Hq|reflexivity].
    + apply Hdur. reflexivity.
  - change (blk_body (metricsBlock name W cp mp)) with
      (((pre ++ [cpu; mem; sto] ++ elapsedFields "" W) ++ [c1; c2]) ++ c3 :: []).
    apply fold_cost; [| |exact Hp|reflexivity].
    + change ((pre ++ [cpu; mem; sto] ++ elapsedFields "" W) ++ [c1; c2]) with
        ((pre ++ [cpu; mem]) ++ sto :: (elapsedFields "" W ++ [c1; c2])).
      apply fold_binds_pred; [exact Hq|reflexivity].
    + apply Hdur. reflexivity.
Qed.

Lemma child_costs (now : Q) (c : Node) (W cp mp : string) (w st : Q) :
  num c "startTime" = Some st ->
  parse_decimal W = Some w ->
  exists d,
    value_of "durationInHoursChild" (vars (childRow now c W cp mp)) = Some d
    /\ (forall q p, num c "cpuRequest" = Some q -> parse_decimal cp = Some p ->
          value_of "cpuCost" (shown (childRow now c W cp mp)) = Some (q * d * p)%Q)
    /\ (forall q p, num c "memoryRequest" = Some q -> parse_decimal mp = Some p ->
          value_of "memoryCost" (shown (childRow now c W cp mp)) = Some (q * d * p)%Q).
Proof.
  intros Hst HW.
  destruct (child_vars now c W cp mp w st Hst HW) as [_ Hd].
  eexists. split; [exact Hd|].
  set (pre := [plain "name"; plain "type"]).
  set (cpu := Pred (Some "cpu") (Some "cpu") "cpuRequest").
  set (mem := Pred (Some "memory") (Some "memory") "memoryRequest").
  set (c1 := costField "cpuCost" "cpu" "durationInHoursChild" cp).
  set (c2 := costField "memoryCost" "memory" "durationInHoursChild" mp).
  assert (Hdur : forall fs2,
    forallb (fun f => negb (is_name "durationInHoursChild" (field_var f))) fs2 = true ->
    value_of "durationInHoursChild"
      (vars (fold_left (eval_field now c)
               ((pre ++ elapsedFields "Child" W) ++ fs2) {| vars := []; shown := [] |}))
    = Some ((clip (now - st) w - sinceEnd now (num c "endTime")) / (3600 # 1))%Q).
  { intros fs2 H2. rewrite fold_left_app, fold_keeps_var by exact H2.
    rewrite fold_left_app.
    match goal with |- context [fold_left _ (elapsedFields _ _) ?r] =>
      destruct (elapsed_child now c W w st r Hst HW) as (_ & _ & H3) end.
    exact H3. }
  unfold childRow, eval_fields.
  split; intros q p Hq Hp.
  - change (childFields W cp mp) with
      (((pre ++ elapsedFields "Child" W) ++ [cpu; mem]) ++ c1 :: [c2]).
    apply fold_cost; [| |exact Hp|reflexivity].
    + change ((pre ++ elapsedFields "Child" W) ++ [cpu; mem]) with
        ((pre ++ elapsedFields "Child" W) ++ cpu :: [mem]).
      apply fold_binds_pred; [exact Hq|reflexivity].
    + apply Hdur. reflexivity.
  - change (childFields W cp mp) with
      (((pre ++ elapsedFields "Child" W) ++ [cpu; mem; c1]) ++ c2 :: []).
    apply fold_cost; [| |exact Hp|reflexivity].
    + change ((pre ++ elapsedFields "Child" W) ++ [cpu; mem; c1]) with
        (((pre ++ elapsedFields "Child" W) ++ [cpu]) ++ mem :: [c1]).
      apply fold_binds_pred; [exact Hq|reflexivity].
    + apply Hdur. reflexivity.
Qed.

(** ** Running the Go functions *)

Lemma eqb_All_false (name : string) : name <> All -> String.eqb name All = false.
Proof. intros H. now apply String.eqb_neq. Qed.

Lemma getPricePerResourceForPod_world (name : string) (w : World) :
  snd (getPricePerResourceForPod name w) = sent (priceQuery name) w.
Proof.
  unfold getPricePerResourceForPod, bind, ExecuteQuery, ret.
  destruct (podsReply (store w) (calls w) (priceQuery name)) as [e|[|j js]]; reflexivity.
Qed.

Lemma RetrievePodMetrics_named (name : string) (w : World) :
  name <> All ->
  RetrievePodMetrics name w =
  getJSONDataFromQuery (metricsText name w) (sent (priceQuery name) w).
Proof.
  intros H. unfold RetrievePodMetrics. rewrite (eqb_All_false _ H).
  unfold bind, GetSecondsSinceMonthStart, metricsText, metricsSeconds, metricsCPUPrice,
    metricsMemoryPrice.
  rewrite <- (getPricePerResourceForPod_world name w).
  destruct (getPricePerResourceForPod name w) as [prices w1]. reflexivity.
Qed.

Lemma RetrievePodHierarchy_calls (name : string) (w : World) :
  calls (snd (RetrievePodHierarchy name w)) =
  if String.eqb name All then calls w else calls w ++ [hierarchyQuery name].
Proof.
  unfold RetrievePodHierarchy.
  destruct (String.eqb name All); [reflexivity|].
  unfold getJSONDataFromQuery.
  destruct (jsonReply (store w) (calls w) (hierarchyQuery name)); reflexivity.
Qed.

Lemma RetrievePodMetrics_calls (name : string) (w : World) :
  calls (snd (RetrievePodMetrics name w)) =
  if String.eqb name All then calls w
  else calls w ++ [priceQuery name; metricsText name w].
Proof.
  destruct (String.eqb name All) eqn:E.
  - unfold RetrievePodMetrics. now rewrite E.
  - apply String.eqb_neq in E. rewrite (RetrievePodMetrics_named name w E).
    unfold getJSONDataFromQuery.
    destruct (jsonReply _ _ _); simpl; now rewrite <- app_assoc.
Qed.

(** ** The loop of removeDuplicates *)

Lemma first_occurrences_snoc (l : list string) (x : string) :
  first_occurrences (l ++ [x]) =
  first_occurrences l ++ (if bool_decide (x ∈ l) then [] else [x]).
Proof.
  unfold first_occurrences.
  rewrite imap_app, omap_app. f_equal.
  - f_equal. apply imap_ext. intros i y Hi. simpl.
    rewrite take_app_le; [reflexivity|].
    apply lookup_lt_Some in Hi. lia.
  - simpl. rewrite Nat.add_0_r, take_app_length.
    destruct (bool_decide (x ∈ l)); reflexivity.
Qed.

Lemma removeDuplicates_loop (pods : list Pod) :
  snd (fold_left removeDuplicates_step pods (∅, [])) = first_occurrences (UID <$> pods) /\
  forall u, is_Some (fst (fold_left removeDuplicates_step pods (∅, [])) !! u) <-> u ∈ UID <$> pods.
Proof.
  induction pods as [|pod pods IH] using rev_ind.
  - simpl. split; [reflexivity|]. intros u. rewrite lookup_empty, elem_of_nil.
    split; [intros [? ?]; discriminate | tauto].
  - rewrite fold_left_app, fmap_app.
    change (UID <$> [pod]) with [UID pod].
    rewrite first_occurrences_snoc. simpl.
    destruct (fold_left removeDuplicates_step pods (∅, [])) as [seen uids].
    simpl in IH. destruct IH as [IHu IHs]. unfold removeDuplicates_step.
    destruct (seen !! UID pod) as [b|] eqn:E.
    + assert (Hin : UID pod ∈ UID <$> pods) by (apply IHs; eauto).
      rewrite bool_decide_eq_true_2 by exact Hin. simpl. rewrite app_nil_r.
      split; [exact IHu|]. intros u. rewrite IHs, elem_of_app, list_elem_of_singleton.
      split; [tauto|]. intros [?| ->]; assumption.
    + assert (Hin : ~ UID pod ∈ UID <$> pods).
      { intros H. apply IHs in H. rewrite E in H. destruct H; discriminate. }
      rewrite bool_decide_eq_false_2 by exact Hin. simpl.
      split; [now rewrite IHu|]. intros u. rewrite elem_of_app, list_elem_of_singleton, <- IHs.
      destruct (decide (UID pod = u)) as [->|Hne].
      * rewrite lookup_insert_eq. split; eauto.
      * rewrite lookup_insert_ne by exact Hne. split; [tauto|]. intros [?|?]; [assumption|congruence].
Qed.

Lemma first_occurrences_elem (l : list string) (u : string) :
  u ∈ first_occurrences l <-> u ∈ l.
Proof.
  induction l as [|x l IH] using rev_ind.
  - reflexivity.
  - rewrite first_occurrences_snoc, !elem_of_app, IH, list_elem_of_singleton.
    destruct (bool_decide (x ∈ l)) eqn:E.
    + apply bool_decide_eq_true_1 in E. rewrite elem_of_nil.
      split; [tauto|]. intros [?| ->]; tauto.
    + rewrite list_elem_of_singleton. tauto.
Qed.

Lemma first_occurrences_NoDup (l : list string) : NoDup (first_occurrences l).
Proof.
  induction l as [|x l IH] using rev_ind.
  - constructor.
  - rewrite first_occurrences_snoc.
    destruct (bool_decide (x ∈ l)) eqn:E.
    + now rewrite app_nil_r.
    + apply bool_decide_eq_false_1 in E.
      apply NoDup_app. split; [exact IH|]. split; [|apply NoDup_singleton].
      intros u Hu Hx. apply list_elem_of_singleton in Hx. subst u.
      apply E, first_occurrences_elem, Hu.
Qed.


(** ** Reading the requests on a graph *)

Lemma labelPairs_In (labels : Labels) (k v : string) :
  In (k, v) (labelPairs labels) <-> exists vs, In (k, vs) labels /\ In v vs.
Proof.
  unfold labelPairs. rewrite in_flat_map. split.
  - intros ([k' vs] & Hkv & Hin). simpl in Hin. apply in_map_iff in Hin as (v' & E & Hv).
    inversion E; subst. eauto.
  - intros (vs & Hkv & Hv). exists (k, vs). split; [exact Hkv|]. simpl.
    apply in_map_iff. eauto.
Qed.

Lemma labelsFilter_holds (labels : Labels) (l : Node) :
  holds l (labelsFilter labels) = true <->
  exists k v, (exists vs, In (k, vs) labels /\ In v vs) /\
              str l "key" = Some k /\ str l "value" = Some v.
Proof.
  unfold labelsFilter. cbn [holds]. rewrite existsb_exists. split.
  - intros (f & Hf & Hh). apply in_map_iff in Hf as ([k v] & <- & Hkv).
    cbn [holds fst snd] in Hh. apply andb_true_iff in Hh as [Hk Hv].
    exists k, v. split; [now apply labelPairs_In|].
    destruct (str l "key") as [x|]; [|discriminate].
    destruct (str l "value") as [y|]; [|discriminate].
    apply String.eqb_eq in Hk, Hv. now subst.
  - intros (k & v & Hkv & Hk & Hv).
    exists (FAnd (FEq "key" k) (FEq "value" v)). split.
    + apply in_map_iff. exists (k, v). split; [reflexivity|]. now apply labelPairs_In.
    + cbn [holds]. rewrite Hk, Hv, !String.eqb_refl. reflexivity.
Qed.

Lemma existsb_eqb_In (u : string) (us : list string) :
  existsb (String.eqb u) us = true <-> In u us.
Proof.
  rewrite existsb_exists. split.
  - intros (x & Hx & E). apply String.eqb_eq in E. now subst.
  - intros H. exists u. split; [exact H|apply String.eqb_refl].
Qed.

Lemma labels_returned (g : Graph) (flt : Filter) (p : Node) :
  In p (returned "pods" (run g (labelsBlocks flt))) <->
  In p g /\
  exists l m, In l g /\ has "isLabel" l = true /\ holds l flt = true /\
              In m g /\ points_at "label" m l = true /\ has "isPod" m = true /\
              uid m = uid p.
Proof.
  unfold run, labelsBlocks.
  cbn [run_blocks blk_name blk_body String.eqb Ascii.eqb Bool.eqb returned defined_vars app].
  unfold roots at 1. cbn [blk_func blk_filter at_root holds_at uids_of String.eqb Ascii.eqb Bool.eqb].
  rewrite filter_In, andb_true_r, existsb_eqb_In, in_flat_map.
  split.
  - intros (Hp & l & Hl & Hu). split; [exact Hp|].
    unfold roots in Hl. cbn [blk_func blk_filter at_root holds_at] in Hl.
    apply filter_In in Hl as (Hlg & Hl). apply andb_true_iff in Hl as [Hl1 Hl2].
    apply in_map_iff in Hu as (m & Hm & Hin).
    apply filter_In in Hin as (Hin & Hpod). cbn [holds_at holds] in Hpod.
    unfold follow in Hin. apply filter_In in Hin as (Hmg & Hpt).
    exists l, m. repeat split; assumption.
  - intros (Hp & l & m & Hlg & Hl1 & Hl2 & Hmg & Hpt & Hpod & Hu).
    split; [exact Hp|]. exists l. split.
    + unfold roots. cbn [blk_func blk_filter at_root holds_at].
      apply filter_In. split; [exact Hlg|]. now rewrite Hl1, Hl2.
    + apply in_map_iff. exists m. split; [exact Hu|].
      apply filter_In. split; [|exact Hpod].
      unfold follow. apply filter_In. split; assumption.
Qed.


(** ** Main results *)

(** C1, as amended.  The text [RetrievePodsInteractions] sends is the printed
    form of one block over the pods, and the block returns a node of the
    graph exactly when the node is a pod and passes the block's filter.
    For the wildcard target with [isOrphan] true there is no filter: every
    pod is returned, with or without an outbound selection edge.  For the
    wildcard target with [isOrphan] false only pods that have an outbound
    selection edge are returned.  For any other target the pods whose name
    is the target are returned.  The target is spliced into the text as it
    is, so this reading is that of a target free of double quotes. *)
Theorem interactions_selection (g : Graph) (name : string) (isOrphan : bool) (n : Node) :
  interactionsQuery name isOrphan =
    render (if String.eqb name All then 3 else 2) [interactionsBlock name isOrphan]
  /\ (In n (returned "pods" (run g [interactionsBlock name isOrphan])) <->
      In n g /\ has "isPod" n = true /\
      if String.eqb name All
      then (if isOrphan then True else orphan n = false)
      else str n "name" = Some name).
Proof.
  split; [apply interactionsQuery_tree|].
  unfold run, interactionsBlock.
  cbn [run_blocks blk_name blk_body String.eqb Ascii.eqb Bool.eqb returned].
  unfold roots. cbn [blk_func blk_filter at_root]. rewrite filter_In, andb_true_iff.
  unfold interactionsFilter, orphan.
  destruct (String.eqb name All); [destruct isOrphan|]; cbn [holds_at holds].
  - intuition.
  - rewrite negb_false_iff. tauto.
  - destruct (str n "name") as [x|]; [rewrite String.eqb_eq|].
    + split; intros (? & ? & ?); repeat split; congruence.
    + split; intros (? & ? & ?); repeat split; congruence.
Qed.

(** C2, as amended.  [getPricePerResourceForPod] always hands back a pair of
    prices, after one request and without logging: the default CPU and
    memory prices when the lookup fails or returns no node, and otherwise
    the two prices decoded from the first node returned, where a price the
    response leaves out is the zero value of [float64]. *)
Theorem getPricePerResourceForPod_cases (name : string) (w : World) :
  fst (getPricePerResourceForPod name w) =
    match podsReply (store w) (calls w) (priceQuery name) with
    | inl _ => (DefaultCPUCostInFloat64, DefaultMemCostInFloat64)
    | inr [] => (DefaultCPUCostInFloat64, DefaultMemCostInFloat64)
    | inr (j :: _) =>
        (default float64_zero (json_cpuPrice j), default float64_zero (json_memoryPrice j))
    end
  /\ snd (getPricePerResourceForPod name w) = sent (priceQuery name) w.
Proof.
  split; [|apply getPricePerResourceForPod_world].
  unfold getPricePerResourceForPod, bind, ExecuteQuery, ret.
  destruct (podsReply (store w) (calls w) (priceQuery name)) as [e|[|j js]]; reflexivity.
Qed.

(** C3, as amended.  Called with the wildcard target, the constant [All],
    [RetrievePodHierarchy] and [RetrievePodMetrics] hand back the empty
    structure, log one line and send nothing to the store.  Called with any
    other target they do send requests: the hierarchy request, or the price
    lookup followed by the metrics request. *)
Theorem wildcard_short_circuit (name : string) (w : World) :
  RetrievePodHierarchy All w = (JSONDataWrapper_empty, logged wrongTypeLine w)
  /\ RetrievePodMetrics All w = (JSONDataWrapper_empty, logged wrongTypeLine w)
  /\ calls (logged wrongTypeLine w) = calls w
  /\ logs (logged wrongTypeLine w) = logs w ++ [wrongTypeLine]
  /\ calls (snd (RetrievePodHierarchy name w)) =
     (if String.eqb name All then calls w else calls w ++ [hierarchyQuery name])
  /\ calls (snd (RetrievePodMetrics name w)) =
     (if String.eqb name All then calls w
      else calls w ++ [priceQuery name; metricsText name w]).
Proof.
  unfold RetrievePodHierarchy at 1, RetrievePodMetrics at 1.
  rewrite String.eqb_refl.
  split; [reflexivity|]. split; [reflexivity|]. split; [reflexivity|].
  split; [reflexivity|].
  split; [apply RetrievePodHierarchy_calls | apply RetrievePodMetrics_calls].
Qed.

(** C4.  In the metrics request, for the pod and for each container, the
    seconds counted since the start are min(now - startTime, seconds since
    the billing window began), hence never more than the latter.  For a
    node with no endTime the hours are those seconds over 3600: the window
    length over 3600 when the node started at or before the window start,
    and (now - startTime) / 3600 when it started within the window. *)
Theorem elapsed_clipped_to_window
        (now : Q) (n c : Node) (name W cpuPrice memoryPrice : string) (w st stc : Q) :
  num n "startTime" = Some st ->
  num c "startTime" = Some stc ->
  parse_decimal W = Some w ->
  metricsQuery name W cpuPrice memoryPrice = render 1 [metricsBlock name W cpuPrice memoryPrice]
  /\ InWindow now st w (num n "endTime")
       (value_of "secondsSinceStart" (vars (parentRow now n name W cpuPrice memoryPrice)))
       (value_of "durationInHours" (vars (parentRow now n name W cpuPrice memoryPrice)))
  /\ InWindow now stc w (num c "endTime")
       (value_of "secondsSinceStartChild" (vars (childRow now c W cpuPrice memoryPrice)))
       (value_of "durationInHoursChild" (vars (childRow now c W cpuPrice memoryPrice))).
Proof.
  intros Hn Hc HW. split; [apply metricsQuery_tree|]. split.
  - destruct (parent_vars now n name W cpuPrice memoryPrice w st Hn HW) as [-> ->].
    apply in_window.
  - destruct (child_vars now c W cpuPrice memoryPrice w stc Hc HW) as [-> ->].
    apply in_window.
Qed.

(** C5, as amended.  For a node with an endTime the hours are
    (secondsSinceStart - (now - endTime)) / 3600.  Against the same node
    without its endTime they are strictly less exactly when the endTime lies
    before the time of evaluation, and less or equal exactly when it does
    not lie after it.  This holds for the pod's line and for the
    containers' line. *)
Theorem ended_node_hours
        (now : Q) (n : Node) (name W cpuPrice memoryPrice : string) (w st et : Q) :
  num n "startTime" = Some st ->
  num n "endTime" = Some et ->
  parse_decimal W = Some w ->
  EndedHours now st w et
    (value_of "durationInHours" (vars (parentRow now n name W cpuPrice memoryPrice)))
    (value_of "durationInHours" (vars (parentRow now (running n) name W cpuPrice memoryPrice)))
  /\ EndedHours now st w et
    (value_of "durationInHoursChild" (vars (childRow now n W cpuPrice memoryPrice)))
    (value_of "durationInHoursChild" (vars (childRow now (running n) W cpuPrice memoryPrice))).
Proof.
  intros Hst Het HW.
  assert (Hst' : num (running n) "startTime" = Some st) by (now rewrite running_startTime).
  split.
  - destruct (parent_vars now n name W cpuPrice memoryPrice w st Hst HW) as [_ ->].
    destruct (parent_vars now (running n) name W cpuPrice memoryPrice w st Hst' HW) as [_ ->].
    rewrite Het, running_endTime. apply ended_hours.
  - destruct (child_vars now n W cpuPrice memoryPrice w st Hst HW) as [_ ->].
    destruct (child_vars now (running n) W cpuPrice memoryPrice w st Hst' HW) as [_ ->].
    rewrite Het, running_endTime. apply ended_hours.
Qed.

(** C6.  For a named target [RetrievePodMetrics] first asks for the prices
    and then sends the metrics request, into which it has printed the two
    prices [getPricePerResourceForPod] handed back.  In that request every
    cost is quantity * durationHours * unit price: the pod's and the
    containers' CPU and memory costs with those two prices, the pod's
    storage cost with the constant default storage price. *)
Theorem costs_from_resolved_prices
        (name : string) (w : World) (now : Q) (n c : Node) (sw st stc : Q) :
  name <> All ->
  parse_decimal (metricsSeconds w) = Some sw ->
  num n "startTime" = Some st ->
  num c "startTime" = Some stc ->
  let cpuPrice := FormatFloat_f_11 (fst (fst (getPricePerResourceForPod name w))) in
  let memoryPrice := FormatFloat_f_11 (snd (fst (getPricePerResourceForPod name w))) in
  let parent := parentRow now n name (metricsSeconds w) cpuPrice memoryPrice in
  let child := childRow now c (metricsSeconds w) cpuPrice memoryPrice in
  calls (snd (RetrievePodMetrics name w)) =
    calls w ++ [priceQuery name; metricsQuery name (metricsSeconds w) cpuPrice memoryPrice]
  /\ metricsQuery name (metricsSeconds w) cpuPrice memoryPrice =
     render 1 [metricsBlock name (metricsSeconds w) cpuPrice memoryPrice]
  /\ (exists d,
        value_of "durationInHours" (vars parent) = Some d
        /\ (forall q p, num n "cpuRequest" = Some q -> parse_decimal cpuPrice = Some p ->
              value_of "cpuCost" (shown parent) = Some (q * d * p)%Q)
        /\ (forall q p, num n "memoryRequest" = Some q -> parse_decimal memoryPrice = Some p ->
              value_of "memoryCost" (shown parent) = Some (q * d * p)%Q)
        /\ (forall q p, num n "storageRequest" = Some q ->
              parse_decimal DefaultStorageCostPerGBPerHour = Some p ->
              value_of "storageCost" (shown parent) = Some (q * d * p)%Q))
  /\ (exists d,
        value_of "durationInHoursChild" (vars child) = Some d
        /\ (forall q p, num c "cpuRequest" = Some q -> parse_decimal cpuPrice = Some p ->
              value_of "cpuCost" (shown child) = Some (q * d * p)%Q)
        /\ (forall q p, num c "memoryRequest" = Some q -> parse_decimal memoryPrice = Some p ->
              value_of "memoryCost" (shown child) = Some (q * d * p)%Q)).
Proof.
  intros Hname Hsw Hn Hc. cbv zeta.
  split.
  { rewrite RetrievePodMetrics_calls, (eqb_All_false _ Hname). reflexivity. }
  split; [apply metricsQuery_tree|].
  split.
  - exact (parent_costs now n name _ _ _ sw st Hn Hsw).
  - exact (child_costs now c _ _ _ sw stc Hc Hsw).
Qed.

(** C7.  The text [RetrievePodsUIDsByLabelsFilter] sends is the printed form
    of two blocks: one over the label nodes that pass the filter, binding
    the variable podUIDs to the pods associated with them, and one that
    returns the nodes of that variable.  The filter holds of a label node
    exactly when the node's key and value are one of the pairs of the
    mapping, whichever it is, so a pod is returned exactly when it is tied
    to at least one label node that matches at least one pair. *)
Theorem labels_filter_is_or (labels : Labels) (g : Graph) (p : Node) :
  labelsQuery (createFilterFromListOfLabels labels) = render 1 (labelsBlocks (labelsFilter labels))
  /\ (forall l, holds l (labelsFilter labels) = true <->
        exists k v, (exists vs, In (k, vs) labels /\ In v vs) /\
                    str l "key" = Some k /\ str l "value" = Some v)
  /\ (In p (returned "pods" (run g (labelsBlocks (labelsFilter labels)))) <->
      In p g /\
      exists l m k v vs,
        In (k, vs) labels /\ In v vs /\
        In l g /\ has "isLabel" l = true /\ str l "key" = Some k /\ str l "value" = Some v /\
        In m g /\ points_at "label" m l = true /\ has "isPod" m = true /\ uid m = uid p).
Proof.
  split; [apply labelsQuery_tree|]. split; [intros l; apply labelsFilter_holds|].
  rewrite labels_returned. split.
  - intros (Hp & l & m & Hlg & Hl1 & Hl2 & Hm).
    apply labelsFilter_holds in Hl2 as (k & v & (vs & Hkv & Hv) & Hk & Hval).
    split; [exact Hp|]. exists l, m, k, v, vs. tauto.
  - intros (Hp & l & m & k & v & vs & Hkv & Hv & Hlg & Hl1 & Hk & Hval & Hm).
    split; [exact Hp|]. exists l, m. split; [exact Hlg|]. split; [exact Hl1|].
    split; [|exact Hm]. apply labelsFilter_holds. exists k, v. eauto.
Qed.

(** C8.  [removeDuplicates] returns the distinct identifiers of its input in
    first-occurrence order.  The result has no repetition, holds exactly
    the identifiers of the input, and depends on the identifiers alone, not
    on the names: five pods that carry one identifier three times and two
    others once, two of them sharing a name, give three entries. *)
Theorem removeDuplicates_first_occurrences (pods : list Pod) :
  removeDuplicates pods = first_occurrences (UID <$> pods)
  /\ NoDup (removeDuplicates pods)
  /\ (forall u, u ∈ removeDuplicates pods <-> exists pod, pod ∈ pods /\ UID pod = u)
  /\ (forall pods', UID <$> pods' = UID <$> pods -> removeDuplicates pods' = removeDuplicates pods)
  /\ removeDuplicates
       [podOf "u1" "web"; podOf "u2" "web"; podOf "u1" "api"; podOf "u3" "db"; podOf "u1" "web"]
     = ["u1"; "u2"; "u3"].
Proof.
  assert (E : forall ps, removeDuplicates ps = first_occurrences (UID <$> ps))
    by (intros ps; apply removeDuplicates_loop).
  split; [apply E|].
  split; [rewrite E; apply first_occurrences_NoDup|].
  split; [|split].
  - intros u. rewrite E, first_occurrences_elem, list_elem_of_fmap.
    split; [intros (pod & -> & Hin) | intros (pod & Hin & <-)]; eauto.
  - intros pods' H. now rewrite !E, H.
  - vm_compute. reflexivity.
Qed.

(** C9.  When the store call fails, [RetrievePodsInteractions] logs the
    failure and hands back nil; [RetrievePodHierarchy] and
    [RetrievePodMetrics], through [getJSONDataFromQuery], log it and hand
    back the empty structure; [RetrievePodsUIDsByLabelsFilter] and
    [RetrievePodsInteractionsForAllLivePodsWithCount] hand the error back
    to the caller and log nothing. *)
Theorem store_failure_policy (w : World) (err : error) :
  (forall name isOrphan,
     rawReply (store w) (calls w) (interactionsQuery name isOrphan) = inl err ->
     RetrievePodsInteractions name isOrphan w =
     ([], logged (interactionsErrorLine name isOrphan err)
                 (sent (interactionsQuery name isOrphan) w)))
  /\ (forall name,
     name <> All ->
     jsonReply (store w) (calls w) (hierarchyQuery name) = inl err ->
     RetrievePodHierarchy name w =
     (JSONDataWrapper_empty, logged err (sent (hierarchyQuery name) w)))
  /\ (forall name,
     name <> All ->
     jsonReply (store w) (calls w ++ [priceQuery name]) (metricsText name w) = inl err ->
     RetrievePodMetrics name w =
     (JSONDataWrapper_empty,
      logged err (sent (metricsText name w) (sent (priceQuery name) w))))
  /\ (forall labels,
     podsReply (store w) (calls w) (labelsQuery (createFilterFromListOfLabels labels)) = inl err ->
     RetrievePodsUIDsByLabelsFilter labels w =
     (inl err, sent (labelsQuery (createFilterFromListOfLabels labels)) w))
  /\ (podsReply (store w) (calls w) livePodsQuery = inl err ->
     RetrievePodsInteractionsForAllLivePodsWithCount w = (inl err, sent livePodsQuery w)).
Proof.
  split; [|split; [|split; [|split]]].
  - intros name isOrphan H.
    unfold RetrievePodsInteractions, bind, ExecuteQueryRaw. now rewrite H.
  - intros name Hn H.
    unfold RetrievePodHierarchy. rewrite (eqb_All_false _ Hn).
    unfold getJSONDataFromQuery. now rewrite H.
  - intros name Hn H.
    rewrite (RetrievePodMetrics_named _ _ Hn).
    unfold getJSONDataFromQuery. simpl. now rewrite H.
  - intros labels H.
    unfold RetrievePodsUIDsByLabelsFilter, bind, ExecuteQuery. now rewrite H.
  - intros H.
    unfold RetrievePodsInteractionsForAllLivePodsWithCount, bind, ExecuteQuery. now rewrite H.
Qed.

(** C10.  For a target other than the wildcard, [RetrievePodsInteractions]
    builds the same text for both values of [isOrphan], and so sends the
    same request and hands back the same bytes. *)
Theorem interactions_named_ignores_isOrphan (name : string) (w : World) :
  name <> All ->
  interactionsQuery name true = interactionsQuery name false
  /\ fst (RetrievePodsInteractions name true w) = fst (RetrievePodsInteractions name false w)
  /\ calls (snd (RetrievePodsInteractions name true w)) =
     calls (snd (RetrievePodsInteractions name false w)).
Proof.
  intros H.
  assert (Q : interactionsQuery name true = interactionsQuery name false).
  { unfold interactionsQuery. now rewrite (eqb_All_false _ H). }
  split; [exact Q|].
  unfold RetrievePodsInteractions, bind, ExecuteQueryRaw, Errorf, ret. rewrite Q.
  destruct (rawReply (store w) (calls w) (interactionsQuery name false)); split; reflexivity.
Qed.

(** ** Further results *)

Lemma hierarchyQuery_tree (name : string) :
  hierarchyQuery name = render 1 [hierarchyBlock name].
Proof. unfold hierarchyQuery, hierarchyBlock, hierarchyChildren. same_text. Qed.

Lemma priceQuery_tree (name : string) :
  priceQuery name = render 1 [priceBlock name].
Proof. unfold priceQuery, priceBlock. same_text. Qed.

Lemma livePodsQuery_tree : livePodsQuery = render 1 [livePodsBlock].
Proof. vm_compute. reflexivity. Qed.

Lemma named_roots (g : Graph) (vars : UidVars) (b : Block) (name : string) (n : Node) :
  blk_func b = FuncHas "isPod" ->
  blk_filter b = Some (FEq "name" name) ->
  In n (roots g vars b) <-> In n g /\ has "isPod" n = true /\ str n "name" = Some name.
Proof.
  intros Hf Hflt. unfold roots. rewrite Hf, Hflt, filter_In, andb_true_iff.
  cbn [at_root holds_at holds].
  destruct (str n "name") as [x|]; [rewrite String.eqb_eq|];
    split; intros (? & ? & ?); repeat split; congruence.
Qed.

Lemma listed_inbound (g : Graph) (alias : option string) (p kind : string)
      (body : list Field) (n c : Node) :
  In c (listed g (Edge None alias None (String "~" p) (Some (FHas kind)) body) n) <->
  In c g /\ points_at p c n = true /\ has kind c = true.
Proof.
  unfold listed, follow. rewrite !filter_In. cbn [holds_at holds]. tauto.
Qed.

(** X1.  [RetrievePodsInteractionsForAllLivePodsWithCount] sends one request
    and writes no log line.  The request is the printed form of a block
    that returns exactly the pods that have no endTime.  The function hands
    back the store's error, or the pods decoded from the response in the
    order of the response. *)
Theorem live_pods_request (g : Graph) (n : Node) (w : World) :
  livePodsQuery = render 1 [livePodsBlock]
  /\ (In n (returned "pods" (run g [livePodsBlock])) <->
      In n g /\ has "isPod" n = true /\ has "endTime" n = false)
  /\ RetrievePodsInteractionsForAllLivePodsWithCount w =
     (match podsReply (store w) (calls w) livePodsQuery with
      | inl err => inl err
      | inr objs => inr (decodePod <$> objs)
      end, sent livePodsQuery w)
  /\ logs (sent livePodsQuery w) = logs w.
Proof.
  split; [apply livePodsQuery_tree|]. split; [|split; [|reflexivity]].
  - unfold run, livePodsBlock.
    cbn [run_blocks blk_name blk_body String.eqb Ascii.eqb Bool.eqb returned].
    unfold roots. cbn [blk_func blk_filter at_root holds_at holds].
    rewrite filter_In, andb_true_iff, negb_true_iff. tauto.
  - unfold RetrievePodsInteractionsForAllLivePodsWithCount, bind, ExecuteQuery, ret.
    destruct (podsReply (store w) (calls w) livePodsQuery); reflexivity.
Qed.

(** X2.  The hierarchy request is the printed form of a block that returns
    the pods whose name is the target and lists, as children of such a pod,
    exactly the nodes that point at it along [pod] and are containers. *)
Theorem hierarchy_request (g : Graph) (name : string) (n c : Node) :
  hierarchyQuery name = render 1 [hierarchyBlock name]
  /\ (In n (returned "parent" (run g [hierarchyBlock name])) <->
      In n g /\ has "isPod" n = true /\ str n "name" = Some name)
  /\ In hierarchyChildren (blk_body (hierarchyBlock name))
  /\ (In c (listed g hierarchyChildren n) <->
      In c g /\ points_at "pod" c n = true /\ has "isContainer" c = true).
Proof.
  split; [apply hierarchyQuery_tree|]. split; [|split].
  - unfold run.
    cbn [run_blocks hierarchyBlock blk_name blk_body String.eqb Ascii.eqb Bool.eqb returned
         defined_vars hierarchyChildren plain app].
    now apply named_roots.
  - simpl. tauto.
  - apply listed_inbound.
Qed.

(** X3.  For a target other than the wildcard the price lookup, the
    hierarchy request, the metrics request and the interactions request
    start from the same pods, and the metrics request lists as children the
    same containers as the hierarchy request. *)
Theorem named_requests_select_the_same_pods
        (g : Graph) (vars : UidVars) (name W cpuPrice memoryPrice : string)
        (isOrphan : bool) (n : Node) :
  name <> All ->
  priceQuery name = render 1 [priceBlock name]
  /\ roots g vars (priceBlock name) = roots g vars (hierarchyBlock name)
  /\ roots g vars (metricsBlock name W cpuPrice memoryPrice) = roots g vars (hierarchyBlock name)
  /\ roots g vars (interactionsBlock name isOrphan) = roots g vars (hierarchyBlock name)
  /\ In (metricsChildren W cpuPrice memoryPrice)
        (blk_body (metricsBlock name W cpuPrice memoryPrice))
  /\ listed g (metricsChildren W cpuPrice memoryPrice) n = listed g hierarchyChildren n.
Proof.
  intros H. split; [apply priceQuery_tree|].
  split; [reflexivity|]. split; [reflexivity|]. split; [|split; [|reflexivity]].
  - unfold roots, interactionsBlock, interactionsFilter.
    cbn [blk_func blk_filter]. now rewrite (eqb_All_false _ H).
  - simpl. tauto.
Qed.

(** X4.  The target is put between the quotes of the request as it is.  A
    target made of a name, a double quote, [) OR eq(name, ], a double quote
    and a second name gives the very text of a request for the pods that
    carry either name. *)
Theorem spliced_target_widens_filter (g : Graph) (a b : string) (isOrphan : bool) (n : Node) :
  splicedTarget a b <> All ->
  interactionsQuery (splicedTarget a b) isOrphan = render 2 [eitherNameBlock a b]
  /\ (In n (returned "pods" (run g [eitherNameBlock a b])) <->
      In n g /\ has "isPod" n = true /\ (str n "name" = Some a \/ str n "name" = Some b)).
Proof.
  intros H. split.
  - unfold interactionsQuery. rewrite (eqb_All_false _ H).
    unfold splicedTarget, eitherNameBlock. same_text.
  - unfold run, eitherNameBlock.
    cbn [run_blocks blk_name blk_body String.eqb Ascii.eqb Bool.eqb returned].
    unfold roots. cbn [blk_func blk_filter at_root holds_at holds existsb].
    rewrite filter_In, andb_true_iff, orb_false_r, orb_true_iff.
    destruct (str n "name") as [x|].
    + rewrite !String.eqb_eq. split.
      * intros (? & ? & [->| ->]); auto.
      * intros (? & ? & [E|E]); inversion E; auto.
    + split.
      * intros (_ & _ & [?|?]); discriminate.
      * intros (_ & _ & [?|?]); discriminate.
Qed.

(** X5.  In the interactions request the two lists agree: for pods [n] and
    [m] of the graph, [m] is listed as outbound of [n] exactly when [n] is
    listed as inbound of [m]. *)
Theorem outbound_inbound_agree (g : Graph) (name : string) (isOrphan : bool) (n m : Node) :
  In n g -> In m g -> has "isPod" n = true ->
  blk_body (interactionsBlock name isOrphan) = [plain "name"; outboundEdge; inboundEdge]
  /\ (In m (listed g outboundEdge n) <-> In n (listed g inboundEdge m)).
Proof.
  intros Hn Hm Hpod. split; [reflexivity|].
  unfold inboundEdge. rewrite listed_inbound.
  unfold outboundEdge, listed, follow. cbn [holds_at]. rewrite !filter_In.
  tauto.
Qed.

Lemma div_3600 (x : Q) : (x / (3600 # 1) == x * (1 # 3600))%Q.
Proof. field. Qed.

Lemma ended_span (now w st et : Q) :
  EndedSpan now st w et
    (Some ((clip (now - st) w - sinceEnd now (Some et)) / (3600 # 1))%Q).
Proof.
  eexists. split; [reflexivity|].
  pose proof (clip_min (now - st)%Q w) as Hc. simpl sinceEnd.
  revert Hc. generalize (clip (now - st)%Q w) as s. intros s Hs.
  change 3600%Q with (3600 # 1)%Q. rewrite !div_3600.
  split; intros H.
  - rewrite (Q.min_l _ _ H) in Hs. rewrite Hs. lra.
  - rewrite (Q.min_r _ _ H) in Hs. rewrite Hs. lra.
Qed.

Lemma hours_sign (now w st et : Q) :
  HoursSign now st w et
    (Some ((clip (now - st) w - sinceEnd now (Some et)) / (3600 # 1))%Q).
Proof.
  eexists. split; [reflexivity|].
  pose proof (clip_min (now - st)%Q w) as Hc. simpl sinceEnd.
  revert Hc. generalize (clip (now - st)%Q w) as s. intros s Hs.
  rewrite div_3600.
  destruct (Q.min_spec (now - st)%Q w) as [[Hlt Hm]|[Hle Hm]];
    rewrite Hm in Hs; rewrite Hs; split; intros; try split; lra.
Qed.

(** X6.  For a node with an endTime the hours are
    (endTime - startTime) / 3600 when the node started inside the window,
    and (endTime - window start) / 3600, the window start being
    now - seconds since the month began, when it started at or before the
    window start.  This holds for the pod and for the containers. *)
Theorem ended_node_span
        (now : Q) (n c : Node) (name W cpuPrice memoryPrice : string) (w st et stc etc : Q) :
  num n "startTime" = Some st ->
  num n "endTime" = Some et ->
  num c "startTime" = Some stc ->
  num c "endTime" = Some etc ->
  parse_decimal W = Some w ->
  EndedSpan now st w et
    (value_of "durationInHours" (vars (parentRow now n name W cpuPrice memoryPrice)))
  /\ EndedSpan now stc w etc
    (value_of "durationInHoursChild" (vars (childRow now c W cpuPrice memoryPrice))).
Proof.
  intros Hst Het Hstc Hetc HW. split.
  - destruct (parent_vars now n name W cpuPrice memoryPrice w st Hst HW) as [_ ->].
    rewrite Het. apply ended_span.
  - destruct (child_vars now c W cpuPrice memoryPrice w stc Hstc HW) as [_ ->].
    rewrite Hetc. apply ended_span.
Qed.

(** X7.  The hours of a node with an endTime are not negative exactly when
    the endTime is not before the startTime and not before the window
    start. *)
Theorem ended_node_hours_sign
        (now : Q) (n c : Node) (name W cpuPrice memoryPrice : string) (w st et stc etc : Q) :
  num n "startTime" = Some st ->
  num n "endTime" = Some et ->
  num c "startTime" = Some stc ->
  num c "endTime" = Some etc ->
  parse_decimal W = Some w ->
  HoursSign now st w et
    (value_of "durationInHours" (vars (parentRow now n name W cpuPrice memoryPrice)))
  /\ HoursSign now stc w etc
    (value_of "durationInHoursChild" (vars (childRow now c W cpuPrice memoryPrice))).
Proof.
  intros Hst Het Hstc Hetc HW. split.
  - destruct (parent_vars now n name W cpuPrice memoryPrice w st Hst HW) as [_ ->].
    rewrite Het. apply hours_sign.
  - destruct (child_vars now c W cpuPrice memoryPrice w stc Hstc HW) as [_ ->].
    rewrite Hetc. apply hours_sign.
Qed.

(** X8.  A pod that ended before the window began and asks for a positive
    amount of CPU at a positive price is given a negative CPU cost. *)
Theorem ended_before_window_costs_negative
        (now : Q) (n : Node) (name W cpuPrice memoryPrice : string) (w st et q p : Q) :
  num n "startTime" = Some st ->
  num n "endTime" = Some et ->
  parse_decimal W = Some w ->
  num n "cpuRequest" = Some q ->
  parse_decimal cpuPrice = Some p ->
  (0 < q)%Q -> (0 < p)%Q ->
  (et < now - w)%Q ->
  exists cost,
    value_of "cpuCost" (shown (parentRow now n name W cpuPrice memoryPrice)) = Some cost
    /\ (cost < 0)%Q.
Proof.
  intros Hst Het HW Hq Hp Hq0 Hp0 Hbefore.
  destruct (parent_costs now n name W cpuPrice memoryPrice w st Hst HW)
    as (d & Hd & Hcpu & _).
  destruct (parent_vars now n name W cpuPrice memoryPrice w st Hst HW) as [_ Hd'].
  rewrite Hd' in Hd. injection Hd as <-. rewrite Het in *.
  eexists. split; [exact (Hcpu q p Hq Hp)|].
  pose proof (clip_min (now - st)%Q w) as Hc. simpl sinceEnd.
  revert Hc. generalize (clip (now - st)%Q w) as s. intros s Hs.
  assert (Hsw : (s <= w)%Q) by (rewrite Hs; apply Q.le_min_r).
  assert (Hneg : (0 < (now - et - s) * (1 # 3600))%Q) by lra.
  assert (E : (q * ((s - (now - et)) / (3600 # 1)) * p ==
               - (q * ((now - et - s) * (1 # 3600)) * p))%Q) by field.
  rewrite E.
  assert (0 < q * ((now - et - s) * (1 # 3600)) * p)%Q.
  { apply Qmult_lt_0_compat; [apply Qmult_lt_0_compat|]; assumption. }
  lra.
Qed.

Section BlankRows.
Variables (now : Q) (n : Node).






End BlankRows.


(** X10.  The lines for the containers never show a storage quantity or a
    storage cost. *)
Theorem containers_carry_no_storage_cost (now : Q) (c : Node) (W cpuPrice memoryPrice : string) :
  value_of "storageCost" (shown (childRow now c W cpuPrice memoryPrice)) = None
  /\ value_of "storage" (shown (childRow now c W cpuPrice memoryPrice)) = None.
Proof.
  unfold childRow, eval_fields.
  split; (rewrite fold_keeps_shown by reflexivity); reflexivity.
Qed.

(** X11.  When the price lookup fails or returns no node,
    [RetrievePodMetrics] for a named target still goes on: it runs the
    metrics request with the default CPU and memory prices printed into
    it. *)
Theorem metrics_falls_back_to_default_prices (name : string) (w : World) :
  name <> All ->
  (forall j js, podsReply (store w) (calls w) (priceQuery name) <> inr (j :: js)) ->
  RetrievePodMetrics name w =
  getJSONDataFromQuery
    (metricsQuery name (Sprintf_f (secondsSinceMonthStartNow w))
       (FormatFloat_f_11 DefaultCPUCostInFloat64) (FormatFloat_f_11 DefaultMemCostInFloat64))
    (sent (priceQuery name) w).
Proof.
  intros Hname Hnone. rewrite (RetrievePodMetrics_named _ _ Hname).
  unfold metricsText, metricsSeconds, metricsCPUPrice, metricsMemoryPrice.
  unfold getPricePerResourceForPod, bind, ExecuteQuery, ret.
  destruct (podsReply (store w) (calls w) (priceQuery name)) as [e|[|j js]];
    [reflexivity|reflexivity|].
  exfalso. exact (Hnone j js eq_refl).
Qed.

Lemma removeDuplicates_eq (pods : list Pod) :
  removeDuplicates pods = first_occurrences (UID <$> pods).
Proof. apply removeDuplicates_loop. Qed.

Lemma first_occurrences_app (l1 l2 : list string) :
  first_occurrences (l1 ++ l2) =
  first_occurrences l1 ++ filter (fun u => u ∉ l1) (first_occurrences l2).
Proof.
  induction l2 as [|x l2 IH] using rev_ind.
  - now rewrite !app_nil_r.
  - rewrite app_assoc, !first_occurrences_snoc, IH, filter_app, <- app_assoc. f_equal. f_equal.
    destruct (bool_decide (x ∈ l2)) eqn:E2.
    + apply bool_decide_eq_true_1 in E2.
      rewrite bool_decide_eq_true_2 by (apply elem_of_app; auto). reflexivity.
    + apply bool_decide_eq_false_1 in E2.
      destruct (decide (x ∈ l1)) as [H1|H1].
      * rewrite bool_decide_eq_true_2 by (apply elem_of_app; auto).
        rewrite filter_cons_False by (intros H; apply H, H1). reflexivity.
      * rewrite bool_decide_eq_false_2
          by (intros H; apply elem_of_app in H as [?|?]; auto).
        rewrite filter_cons_True by exact H1. reflexivity.
Qed.

Lemma first_occurrences_sublist (l : list string) : first_occurrences l `sublist_of` l.
Proof.
  induction l as [|x l IH] using rev_ind; [reflexivity|].
  rewrite first_occurrences_snoc. apply sublist_app; [exact IH|].
  destruct (bool_decide (x ∈ l)); [apply sublist_nil_l | reflexivity].
Qed.

Lemma first_occurrences_id (l : list string) : first_occurrences l = l <-> NoDup l.
Proof.
  split.
  - intros <-. apply first_occurrences_NoDup.
  - induction l as [|x l IH] using rev_ind; [reflexivity|].
    intros H. apply NoDup_app in H as (Hl & Hx & _).
    rewrite first_occurrences_snoc, IH by exact Hl.
    rewrite bool_decide_eq_false_2; [reflexivity|].
    intros Hin. apply (Hx x Hin). now apply list_elem_of_singleton.
Qed.

(** X12.  [removeDuplicates] of two batches of pods in a row is
    [removeDuplicates] of the first followed by that of the second without
    the identifiers the first batch holds. *)
Theorem removeDuplicates_app (pods more : list Pod) :
  removeDuplicates (pods ++ more) =
  removeDuplicates pods ++ filter (fun u => u ∉ UID <$> pods) (removeDuplicates more).
Proof.
  rewrite !removeDuplicates_eq, fmap_app. apply first_occurrences_app.
Qed.

(** X13.  [removeDuplicates] only drops entries: its result is a
    subsequence of the identifiers of the input, in the input's order, and
    never longer than the input. *)
Theorem removeDuplicates_sublist (pods : list Pod) :
  removeDuplicates pods `sublist_of` UID <$> pods
  /\ length (removeDuplicates pods) <= length pods.
Proof.
  rewrite removeDuplicates_eq.
  pose proof (first_occurrences_sublist (UID <$> pods)) as H.
  split; [exact H|]. apply sublist_length in H. now rewrite length_fmap in H.
Qed.

Lemma sublist_same_length (l1 l2 : list string) :
  l1 `sublist_of` l2 -> length l1 = length l2 -> l1 = l2.
Proof.
  induction 1 as [|x l1 l2 Hs IH|x l1 l2 Hs IH]; intros Hlen.
  - reflexivity.
  - simpl in Hlen. f_equal. apply IH. lia.
  - apply sublist_length in Hs. simpl in Hlen. lia.
Qed.

(** X14.  [removeDuplicates] hands back every identifier of its input, and
    as many entries as pods, exactly when the identifiers of the input are
    pairwise distinct. *)
Theorem removeDuplicates_keeps_all_iff_distinct (pods : list Pod) :
  (removeDuplicates pods = UID <$> pods <-> NoDup (UID <$> pods))
  /\ (length (removeDuplicates pods) = length pods <-> NoDup (UID <$> pods)).
Proof.
  rewrite removeDuplicates_eq.
  split; [apply first_occurrences_id|].
  split.
  - intros Hlen. apply first_occurrences_id.
    apply sublist_same_length; [apply first_occurrences_sublist|].
    now rewrite length_fmap.
  - intros H. apply first_occurrences_id in H. rewrite H. apply length_fmap.
Qed.

End Properties.

(** * Closed instances *)

(** C1: with the wildcard target and [isOrphan] true the request returns a
    pod that has an outbound selection edge. *)
Lemma wildcard_orphan_flag_keeps_non_orphans :
  In (podNode "0x1" "web" ["0x2"])
     (returned "pods"
        (run [podNode "0x1" "web" ["0x2"]; podNode "0x2" "db" []]
             [interactionsBlock (D := fixedDeps "") "" true]))
  /\ orphan (podNode "0x1" "web" ["0x2"]) = false.
Proof.
  split; [|reflexivity]. simpl. left. reflexivity.
Qed.

(** C2: a node returned without prices yields zero prices, not the
    defaults; one returned with a CPU price only yields a zero memory
    price. *)
Lemma price_without_override_is_zero :
  fst (getPricePerResourceForPod (D := fixedDeps "") "web"
         (@freshWorld (fixedDeps "") (@priceStore (fixedDeps "") [bareObject] None) 0%N)) = (0%N, 0%N)
  /\ fst (getPricePerResourceForPod (D := fixedDeps "") "web"
         (@freshWorld (fixedDeps "") (@priceStore (fixedDeps "") [bareObject] None) 0%N))
     <> (@DefaultCPUCostInFloat64 (fixedDeps ""), @DefaultMemCostInFloat64 (fixedDeps ""))
  /\ fst (getPricePerResourceForPod (D := fixedDeps "") "web" pricedWorld)
     = (5000000000%N, 0%N).
Proof.
  split; [reflexivity|]. split; [|reflexivity].
  vm_compute. discriminate.
Qed.

(** C3: whatever the constant [All] is, the empty target and the target
    "all" are not both answered without a request. *)
Lemma empty_and_all_not_both_wildcard :
  ~ exists D : Deps,
      forall w : World,
        calls (snd (RetrievePodHierarchy "" w)) = calls w
        /\ calls (snd (RetrievePodHierarchy "all" w)) = calls w.
Proof.
  intros [D H].
  destruct (H (freshWorld downStore float64_zero)) as [H1 H2].
  rewrite RetrievePodHierarchy_calls in H1, H2.
  destruct (String.eqb "" All) eqn:E1.
  - destruct (String.eqb "all" All) eqn:E2.
    + apply String.eqb_eq in E1, E2. congruence.
    + discriminate H2.
  - discriminate H1.
Qed.

(** C4 on a running pod started 100 seconds ago and a running container
    started 50 seconds ago, 1000 seconds into the month. *)
Lemma elapsed_clipped_to_window_witness :
  InWindow 100 0 (1000000000 # 1000000) None
    (value_of "secondsSinceStart"
       (vars (parentRow (D := fixedDeps "") 100 (samplePod None) "web"
                "1000.000000" "0.05000000000" "0.01000000000")))
    (value_of "durationInHours"
       (vars (parentRow (D := fixedDeps "") 100 (samplePod None) "web"
                "1000.000000" "0.05000000000" "0.01000000000")))
  /\ InWindow 100 50 (1000000000 # 1000000) None
    (value_of "secondsSinceStartChild"
       (vars (childRow 100 sampleContainer
                "1000.000000" "0.05000000000" "0.01000000000")))
    (value_of "durationInHoursChild"
       (vars (childRow 100 sampleContainer
                "1000.000000" "0.05000000000" "0.01000000000"))).
Proof.
  exact (proj2 (@elapsed_clipped_to_window (fixedDeps "") 100 (samplePod None)
                  sampleContainer "web" "1000.000000" "0.05000000000" "0.01000000000"
                  (1000000000 # 1000000) 0 50 eq_refl eq_refl eq_refl)).
Defined.

(** C5 on a pod started 100 seconds ago that ended 60 seconds ago. *)
Lemma ended_node_hours_witness :
  EndedHours 100 0 (1000000000 # 1000000) 40
    (value_of "durationInHours"
       (vars (parentRow (D := fixedDeps "") 100 (samplePod (Some 40%Q)) "web"
                "1000.000000" "0.05000000000" "0.01000000000")))
    (value_of "durationInHours"
       (vars (parentRow (D := fixedDeps "") 100 (running (samplePod (Some 40%Q))) "web"
                "1000.000000" "0.05000000000" "0.01000000000"))).
Proof.
  exact (proj1 (@ended_node_hours (fixedDeps "") 100 (samplePod (Some 40%Q)) "web"
                  "1000.000000" "0.05000000000" "0.01000000000"
                  (1000000000 # 1000000) 0 40 eq_refl eq_refl eq_refl)).
Defined.

(** C5: a pod whose endTime is the time of evaluation gets the same hours
    as the same pod without endTime, not fewer. *)
Lemma ended_now_not_less :
  exists dT dR,
    value_of "durationInHours"
      (vars (parentRow (D := fixedDeps "") 100 (samplePod (Some 100%Q)) "web"
               "1000.000000" "0.05000000000" "0.01000000000")) = Some dT
    /\ value_of "durationInHours"
      (vars (parentRow (D := fixedDeps "") 100 (running (samplePod (Some 100%Q))) "web"
               "1000.000000" "0.05000000000" "0.01000000000")) = Some dR
    /\ ~ (dT < dR)%Q.
Proof.
  eexists _, _. split; [vm_compute; reflexivity|]. split; [vm_compute; reflexivity|].
  vm_compute. discriminate.
Qed.

(** C6 on a run of [RetrievePodMetrics] whose price lookup finds a CPU
    price of 0.05: the pod's CPU cost is 2 * hours * 0.05 and its storage
    cost 10 * hours * 0.00013888888. *)
Lemma costs_from_resolved_prices_witness :
  "web" <> @All (fixedDeps "")
  /\ exists d,
       value_of "durationInHours"
         (vars (parentRow (D := fixedDeps "") 100 (samplePod None) "web"
                  "1000.000000" "0.05000000000" "0.00000000000")) = Some d
       /\ value_of "cpuCost"
         (shown (parentRow (D := fixedDeps "") 100 (samplePod None) "web"
                   "1000.000000" "0.05000000000" "0.00000000000"))
          = Some (2 * d * (5000000000 # 100000000000))%Q
       /\ value_of "storageCost"
         (shown (parentRow (D := fixedDeps "") 100 (samplePod None) "web"
                   "1000.000000" "0.05000000000" "0.00000000000"))
          = Some (10 * d * (13888888 # 100000000000))%Q.
Proof.
  assert (H : "web" <> @All (fixedDeps "")) by discriminate.
  split; [exact H|].
  destruct (@costs_from_resolved_prices (fixedDeps "") "web" pricedWorld 100
              (samplePod None) sampleContainer (1000000000 # 1000000) 0 50
              H eq_refl eq_refl eq_refl) as (_ & _ & (d & Hd & Hcpu & _ & Hsto) & _).
  exists d. split; [exact Hd|]. split.
  - exact (Hcpu 2%Q (5000000000 # 100000000000)%Q eq_refl eq_refl).
  - exact (Hsto 10%Q (13888888 # 100000000000)%Q eq_refl eq_refl).
Defined.

(** C9 with the store down. *)
Lemma store_failure_policy_witness :
  fst (RetrievePodsInteractions (D := fixedDeps "") "web" false downWorld) = []
  /\ fst (RetrievePodHierarchy (D := fixedDeps "") "web" downWorld) = None
  /\ fst (RetrievePodMetrics (D := fixedDeps "") "web" downWorld) = None
  /\ fst (RetrievePodsUIDsByLabelsFilter (D := fixedDeps "") sampleLabels downWorld) = inl "connection refused"
  /\ fst (RetrievePodsInteractionsForAllLivePodsWithCount (D := fixedDeps "") downWorld) = inl "connection refused".
Proof.
  assert (H : "web" <> @All (fixedDeps "")) by discriminate.
  destruct (@store_failure_policy (fixedDeps "") downWorld "connection refused")
    as (H1 & H2 & H3 & H4 & H5).
  rewrite (H1 "web" false eq_refl), (H2 "web" H eq_refl), (H3 "web" H eq_refl),
    (H4 sampleLabels eq_refl), (H5 eq_refl).
  repeat split.
Defined.

(** C10 for the target web. *)
Lemma interactions_named_ignores_isOrphan_witness :
  "web" <> @All (fixedDeps "")
  /\ interactionsQuery (D := fixedDeps "") "web" true =
     interactionsQuery (D := fixedDeps "") "web" false
  /\ fst (RetrievePodsInteractions (D := fixedDeps "") "web" true downWorld) =
     fst (RetrievePodsInteractions (D := fixedDeps "") "web" false downWorld).
Proof.
  assert (H : "web" <> @All (fixedDeps "")) by discriminate.
  split; [exact H|].
  destruct (@interactions_named_ignores_isOrphan (fixedDeps "") "web" downWorld H)
    as (H1 & H2 & _).
  split; [exact H1 | exact H2].
Defined.

(** The target is spliced into the text as it is: a target with double
    quotes in it gives a text that is also the printed form of a request
    with a different filter, here one for the pods named a or b. *)
Example crafted_target_prints_as_or :
  interactionsQuery (D := fixedDeps "") craftedTarget false =
  render 2 [ {| blk_name := "pods"; blk_func := FuncHas "isPod";
                blk_filter := Some (FOr [FEq "name" "a"; FEq "name" "b"]);
                blk_body := interactionsBody |} ].
Proof. vm_compute. reflexivity. Qed.

(** The example of the specification: with tier in {frontend, backend} or
    env = prod asked for, the pod labelled env=prod alone and the pod
    labelled tier=frontend are returned, the pod labelled tier=db and
    env=test is not. *)
Example labels_example :
  map uid (returned "pods" (run labelledGraph (labelsBlocks (labelsFilter sampleLabels))))
  = ["0x1"; "0x3"].
Proof. vm_compute. reflexivity. Qed.

(** X3 for the target web. *)
Lemma named_requests_select_the_same_pods_witness :
  "web" <> @All (fixedDeps "")
  /\ roots pairGraph []
       (metricsBlock (D := fixedDeps "") "web" "1000.000000" "0.05000000000" "0.01000000000")
     = roots pairGraph [] (hierarchyBlock "web")
  /\ roots pairGraph [] (interactionsBlock (D := fixedDeps "") "web" true)
     = roots pairGraph [] (hierarchyBlock "web").
Proof.
  assert (H : "web" <> @All (fixedDeps "")) by discriminate.
  split; [exact H|].
  destruct (@named_requests_select_the_same_pods (fixedDeps "") pairGraph [] "web"
              "1000.000000" "0.05000000000" "0.01000000000" true
              (podNode "0x1" "web" ["0x2"]) H) as (_ & _ & H1 & H2 & _).
  split; [exact H1 | exact H2].
Defined.

(** X4 for the names web and db. *)
Lemma spliced_target_widens_filter_witness :
  splicedTarget "web" "db" <> @All (fixedDeps "")
  /\ interactionsQuery (D := fixedDeps "") (splicedTarget "web" "db") false
     = render 2 [eitherNameBlock "web" "db"].
Proof.
  assert (H : splicedTarget "web" "db" <> @All (fixedDeps "")) by discriminate.
  split; [exact H|].
  exact (proj1 (@spliced_target_widens_filter (fixedDeps "") pairGraph "web" "db" false
                  (podNode "0x1" "web" ["0x2"]) H)).
Defined.

(** X5 on two pods, the first of which selects the second. *)
Lemma outbound_inbound_agree_witness :
  In (podNode "0x2" "db" []) (listed pairGraph outboundEdge (podNode "0x1" "web" ["0x2"]))
  <-> In (podNode "0x1" "web" ["0x2"]) (listed pairGraph inboundEdge (podNode "0x2" "db" [])).
Proof.
  exact (proj2 (@outbound_inbound_agree (fixedDeps "") pairGraph "web" false
                  (podNode "0x1" "web" ["0x2"]) (podNode "0x2" "db" [])
                  (or_introl eq_refl) (or_intror (or_introl eq_refl)) eq_refl)).
Defined.

(** X6 on a pod that ran from second 0 to second 40 and a container that ran
    from second 50 to second 80, seen at second 100. *)
Lemma ended_node_span_witness :
  EndedSpan 100 0 (1000000000 # 1000000) 40
    (value_of "durationInHours"
       (vars (parentRow (D := fixedDeps "") 100 (samplePod (Some 40%Q)) "web"
                "1000.000000" "0.05000000000" "0.01000000000")))
  /\ EndedSpan 100 50 (1000000000 # 1000000) 80
    (value_of "durationInHoursChild"
       (vars (childRow 100 endedContainer "1000.000000" "0.05000000000" "0.01000000000"))).
Proof.
  exact (@ended_node_span (fixedDeps "") 100 (samplePod (Some 40%Q)) endedContainer "web"
           "1000.000000" "0.05000000000" "0.01000000000"
           (1000000000 # 1000000) 0 40 50 80 eq_refl eq_refl eq_refl eq_refl eq_refl).
Defined.

(** X7 on the same pod and container. *)
Lemma ended_node_hours_sign_witness :
  HoursSign 100 0 (1000000000 # 1000000) 40
    (value_of "durationInHours"
       (vars (parentRow (D := fixedDeps "") 100 (samplePod (Some 40%Q)) "web"
                "1000.000000" "0.05000000000" "0.01000000000")))
  /\ HoursSign 100 50 (1000000000 # 1000000) 80
    (value_of "durationInHoursChild"
       (vars (childRow 100 endedContainer "1000.000000" "0.05000000000" "0.01000000000"))).
Proof.
  exact (@ended_node_hours_sign (fixedDeps "") 100 (samplePod (Some 40%Q)) endedContainer "web"
           "1000.000000" "0.05000000000" "0.01000000000"
           (1000000000 # 1000000) 0 40 50 80 eq_refl eq_refl eq_refl eq_refl eq_refl).
Defined.

(** X8 on a pod that ran from second 0 to second 40, seen at second 5000,
    1000 seconds into the month. *)
Lemma ended_before_window_costs_negative_witness :
  exists cost,
    value_of "cpuCost"
      (shown (parentRow (D := fixedDeps "") 5000 (samplePod (Some 40%Q)) "web"
                "1000.000000" "0.05000000000" "0.01000000000")) = Some cost
    /\ (cost < 0)%Q.
Proof.
  apply (@ended_before_window_costs_negative (fixedDeps "") 5000 (samplePod (Some 40%Q)) "web"
           "1000.000000" "0.05000000000" "0.01000000000"
           (1000000000 # 1000000) 0 40 2 (5000000000 # 100000000000)
           eq_refl eq_refl eq_refl eq_refl eq_refl);
    reflexivity.
Defined.


(** X11 with the store down. *)
Lemma metrics_falls_back_to_default_prices_witness :
  RetrievePodMetrics (D := fixedDeps "") "web" downWorld =
  getJSONDataFromQuery (D := fixedDeps "")
    (metricsQuery (D := fixedDeps "") "web" "1000.000000" "0.02400000000" "0.01000000000")
    (sent (priceQuery "web") downWorld).
Proof.
  assert (H : "web" <> @All (fixedDeps "")) by discriminate.
  apply (@metrics_falls_back_to_default_prices (fixedDeps "") "web" downWorld H).
  intros j js. discriminate.
Defined.
